(** * Discordeno member handlers (src/handlers/member.ts)

    A shallow embedding of the member handlers [addRole], [removeRole],
    [sendDirectMessage], [kick] and [editMember], and the properties of
    their authorization checks and of the DM-channel cache.

    The handlers run in a small state-and-exception monad.  The state is
    the channel cache together with the ordered trace of every call a
    handler makes to a collaborator (permission helpers, cache handlers,
    request manager, message sender), so that "no request was issued" and
    "this predicate was never evaluated" are statements about the trace. *)

From stdpp Require Import gmap strings list fin_maps pretty.
From Stdlib Require Import ZArith.

Open Scope Z_scope.
Open Scope string_scope.
Open Scope list_scope.

(** ** Data *)

(** The members of [Errors] (types/errors.ts) that member.ts throws. *)
Inductive Errors :=
  | BOTS_HIGHEST_ROLE_TOO_LOW
  | MISSING_MANAGE_ROLES
  | MISSING_KICK_MEMBERS
  | NICKNAMES_MAX_LENGTH
  | MISSING_MANAGE_NICKNAMES
  | MISSING_MUTE_MEMBERS
  | MISSING_DEAFEN_MEMBERS.

(** The members of [Permissions] (types/permission.ts) that member.ts names. *)
Inductive Permissions :=
  | MANAGE_ROLES
  | KICK_MEMBERS
  | MANAGE_NICKNAMES
  | MUTE_MEMBERS
  | DEAFEN_MEMBERS.

#[global] Instance Errors_eq_dec : EqDecision Errors.
Proof. solve_decision. Defined.

#[global] Instance Permissions_eq_dec : EqDecision Permissions.
Proof. solve_decision. Defined.

(** A role as the handlers read it: [id] and [position]. *)
Record Role := { role_id : string; position : Z }.

(** The answer of the remote API to the DM-creation request.  The handler
    reads [id] only; the rest of the JSON body is kept opaque. *)
Record DMChannelCreatePayload := { payload_id : string; payload_body : string }.

(** A channel structure as stored in the channel cache. *)
Record Channel := { channel_id : string; channel_body : string }.

#[global] Instance Role_eq_dec : EqDecision Role.
Proof. solve_decision. Defined.

#[global] Instance Channel_eq_dec : EqDecision Channel.
Proof. solve_decision. Defined.

(** [EditMemberOptions]: every field is optional ([None] is JavaScript's
    [undefined]); [channel_id] may also be [null] ([Some None]).  Strings
    are sequences of code units, [String.length] is JavaScript's [length]. *)
Record EditMemberOptions := {
  nick : option string;
  roles : option (list string);
  mute : option bool;
  deaf : option bool;
  channel_id_opt : option (option string)
}.

(** Endpoints of constants/discord.ts used by the handlers. *)
Inductive Endpoint :=
  | GUILD_MEMBER_ROLE (guildID memberID roleID : string)
  | GUILD_MEMBER (guildID memberID : string)
  | USER_CREATE_DM.

Inductive Method := PUT | DELETE | PATCH | POST.

(** The body handed to the request manager. *)
Inductive Body :=
  | ReasonBody (reason : option string)
  | OptionsBody (options : EditMemberOptions)
  | RecipientBody (recipient_id : string).

Record Request := { method : Method; endpoint : Endpoint; body : Body }.

(** One entry per call to a collaborator, in program order. *)
Inductive Call :=
  | CallHighestRole (guildID memberID : string)
  | CallHigherRolePosition (guildID roleID otherRoleID : string)
  | CallBotHasPermission (guildID : string) (perms : list Permissions)
  | CallCacheGet (key : string)
  | CallCacheDelete (key : string)
  | CallCacheSet (key : string) (value : Channel)
  | CallCreateChannel (data : DMChannelCreatePayload)
  | CallRequest (r : Request)
  | CallSendMessage (channelID content : string).

(** The state the handlers run in. *)
Record World := {
  channels : gmap string Channel;
  trace : list Call
}.

Definition log (c : Call) (w : World) : World :=
  {| channels := channels w; trace := trace w ++ [c] |}.

Definition with_channels (f : gmap string Channel → gmap string Channel) (w : World) : World :=
  {| channels := f (channels w); trace := trace w |}.

(** What the collaborators living in other modules answer.  They are
    parameters of the handlers:
    - [botID] is module/client.ts' bot identity;
    - [highestRole_of], [higherRolePosition_of], [botHasPermission_of] are
      the results of utils/permissions.ts over the cached guild state;
    - [createChannel_of] is structures.createChannel;
    - [createDM_response] is the transport's answer to POST USER_CREATE_DM
      for a recipient, [None] when the transport rejects the request;
    - [request_accepted] tells whether the transport accepts a PUT or a
      DELETE that a handler issues;
    - [channelCreateEvent] is what the gateway's channel-create event, which
      arrives while the POST is awaited, does to the channel cache. *)
Record Env := {
  botID : string;
  highestRole_of : string → string → option Role;
  higherRolePosition_of : string → string → string → bool;
  botHasPermission_of : string → list Permissions → bool;
  createChannel_of : DMChannelCreatePayload → Channel;
  createDM_response : string → option DMChannelCreatePayload;
  request_accepted : Request → bool;
  channelCreateEvent : DMChannelCreatePayload → gmap string Channel → gmap string Channel
}.

(** ** The monad *)

(** A handler either throws one of its own [Errors], or a rejection of the
    transport passes through it unchanged. *)
Inductive Thrown :=
  | Err (e : Errors)
  | Rejected (r : Request).

Definition M (A : Type) : Type := World → (Thrown + A) * World.

Definition ret {A} (a : A) : M A := λ w, (inr a, w).

Definition bind {A B} (m : M A) (k : A → M B) : M B :=
  λ w, match m w with
       | (inl t, w') => (inl t, w')
       | (inr a, w') => k a w'
       end.

Definition throw {A} (e : Errors) : M A := λ w, (inl (Err e), w).

Definition call (c : Call) : M unit := λ w, (inr tt, log c w).

Notation "'let*' x ':=' m 'in' k" := (bind m (λ x, k))
  (at level 10, x name, m at level 100, k at level 200).
Notation "m ';;;' k" := (bind m (λ _, k))
  (at level 100, k at level 200, right associativity).

(** JavaScript truthiness of the optional fields the handlers test. *)
Definition truthy_string (o : option string) : bool :=
  match o with
  | Some s => negb (String.eqb s "")
  | None => false
  end.

Definition truthy_bool (o : option bool) : bool :=
  match o with
  | Some b => b
  | None => false
  end.

Definition truthy_object {A} (o : option A) : bool :=
  match o with
  | Some _ => true
  | None => false
  end.

(** The request that asks the remote API for the DM channel of a user. *)
Definition createDM_request (recipient_id : string) : Request :=
  {| method := POST; endpoint := USER_CREATE_DM; body := RecipientBody recipient_id |}.

(** ** The handlers *)

Section Handlers.
Variable env : Env.

(** *** Collaborators, as the handlers call them *)

(** The permission helpers answer at once with a value, as the handlers
    use them ([highestRole] is awaited, the other two are tested in place);
    every call is recorded. *)

Definition highestRole (guildID memberID : string) : M (option Role) :=
  call (CallHighestRole guildID memberID) ;;;
  ret (highestRole_of env guildID memberID).

Definition higherRolePosition (guildID roleID otherRoleID : string) : M bool :=
  call (CallHigherRolePosition guildID roleID otherRoleID) ;;;
  ret (higherRolePosition_of env guildID roleID otherRoleID).

Definition botHasPermission (guildID : string) (perms : list Permissions) : M bool :=
  call (CallBotHasPermission guildID perms) ;;;
  ret (botHasPermission_of env guildID perms).

Definition cacheHandlers_get (key : string) : M (option Channel) :=
  call (CallCacheGet key) ;;;
  λ w, (inr (channels w !! key), w).

Definition cacheHandlers_delete (key : string) : M unit :=
  call (CallCacheDelete key) ;;;
  λ w, (inr tt, with_channels (delete key) w).

Definition cacheHandlers_set (key : string) (value : Channel) : M unit :=
  call (CallCacheSet key value) ;;;
  λ w, (inr tt, with_channels (insert key value) w).

Definition structures_createChannel (data : DMChannelCreatePayload) : M Channel :=
  call (CallCreateChannel data) ;;;
  ret (createChannel_of env data).

(** A request of an async handler: it is recorded as issued, and the
    handler, which returns the promise of the request manager, returns if
    the transport accepts the request and throws the transport's rejection
    if it does not. *)
Definition RequestManager_send (r : Request) : M unit :=
  call (CallRequest r) ;;;
  λ w, if request_accepted env r then (inr tt, w) else (inl (Rejected r), w).

Definition RequestManager_put (e : Endpoint) (b : Body) : M unit :=
  RequestManager_send {| method := PUT; endpoint := e; body := b |}.

Definition RequestManager_delete (e : Endpoint) (b : Body) : M unit :=
  RequestManager_send {| method := DELETE; endpoint := e; body := b |}.

(** The PATCH of editMember, which is not async: the handler returns the
    promise of the request manager as soon as the request is issued,
    whatever the transport answers later. *)
Definition RequestManager_patch (e : Endpoint) (b : Body) : M unit :=
  call (CallRequest {| method := PATCH; endpoint := e; body := b |}).

(** [RequestManager.post(endpoints.USER_CREATE_DM, { recipient_id })], the
    only request whose answer a handler reads: the answer comes with the
    gateway event applied to the cache, a rejection passes through. *)
Definition RequestManager_post_createDM (recipient_id : string) : M DMChannelCreatePayload :=
  call (CallRequest (createDM_request recipient_id)) ;;;
  λ w, match createDM_response env recipient_id with
       | Some data => (inr data, with_channels (channelCreateEvent env data) w)
       | None => (inl (Rejected (createDM_request recipient_id)), w)
       end.

(** [sendMessage] of handlers/channel.ts, recorded as a network call; what
    becomes of the message is that handler's business. *)
Definition sendMessage (channelID content : string) : M unit :=
  call (CallSendMessage channelID content).

(** *** addRole *)
Definition addRole (guildID memberID roleID : string) (reason : option string) : M unit :=
  let* botsHighestRole := highestRole guildID (botID env) in
  let* tooLow :=
    match botsHighestRole with
    | Some r =>
        let* higher := higherRolePosition guildID (role_id r) roleID in
        ret (negb higher)
    | None => ret false
    end in
  if tooLow then throw BOTS_HIGHEST_ROLE_TOO_LOW else
  let* allowed := botHasPermission guildID [MANAGE_ROLES] in
  if negb allowed then throw MISSING_MANAGE_ROLES else
  RequestManager_put (GUILD_MEMBER_ROLE guildID memberID roleID) (ReasonBody reason).

(** *** removeRole *)
Definition removeRole (guildID memberID roleID : string) (reason : option string) : M unit :=
  let* botsHighestRole := highestRole guildID (botID env) in
  let* tooLow :=
    match botsHighestRole with
    | Some r =>
        let* higher := higherRolePosition guildID (role_id r) roleID in
        ret (negb higher)
    | None => ret false
    end in
  if tooLow then throw BOTS_HIGHEST_ROLE_TOO_LOW else
  let* allowed := botHasPermission guildID [MANAGE_ROLES] in
  if negb allowed then throw MISSING_MANAGE_ROLES else
  RequestManager_delete (GUILD_MEMBER_ROLE guildID memberID roleID) (ReasonBody reason).

(** *** sendDirectMessage *)
Definition sendDirectMessage (memberID content : string) : M unit :=
  let* cached := cacheHandlers_get memberID in
  let* dmChannel :=
    match cached with
    | Some c => ret c
    | None =>
        let* dmChannelData := RequestManager_post_createDM memberID in
        cacheHandlers_delete (payload_id dmChannelData) ;;;
        let* channel := structures_createChannel dmChannelData in
        cacheHandlers_set memberID channel ;;;
        ret channel
    end in
  sendMessage (channel_id dmChannel) content.

(** *** kick *)
Definition kick (guildID memberID : string) (reason : option string) : M unit :=
  let* botsHighestRole := highestRole guildID (botID env) in
  let* membersHighestRole := highestRole guildID memberID in
  let tooLow :=
    match botsHighestRole, membersHighestRole with
    | Some b, Some m => (position b <=? position m)%Z
    | _, _ => false
    end in
  if tooLow then throw BOTS_HIGHEST_ROLE_TOO_LOW else
  let* allowed := botHasPermission guildID [KICK_MEMBERS] in
  if negb allowed then throw MISSING_KICK_MEMBERS else
  RequestManager_delete (GUILD_MEMBER guildID memberID) (ReasonBody reason).

(** *** editMember *)

(** [if (options.nick) { ... }] *)
Definition editMember_nick (guildID : string) (options : EditMemberOptions) : M unit :=
  match nick options with
  | Some n =>
      if truthy_string (Some n) then
        if (32 <? String.length n)%nat then throw NICKNAMES_MAX_LENGTH else
        let* allowed := botHasPermission guildID [MANAGE_NICKNAMES] in
        if negb allowed then throw MISSING_MANAGE_NICKNAMES else ret tt
      else ret tt
  | None => ret tt
  end.

(** [if (options.roles && !botHasPermission(...)) throw] *)
Definition editMember_roles (guildID : string) (options : EditMemberOptions) : M unit :=
  if truthy_object (roles options) then
    let* allowed := botHasPermission guildID [MANAGE_ROLES] in
    if negb allowed then throw MISSING_MANAGE_ROLES else ret tt
  else ret tt.

(** [if (options.mute) { if (!botHasPermission(...)) throw }] *)
Definition editMember_mute (guildID : string) (options : EditMemberOptions) : M unit :=
  if truthy_bool (mute options) then
    let* allowed := botHasPermission guildID [MUTE_MEMBERS] in
    if negb allowed then throw MISSING_MUTE_MEMBERS else ret tt
  else ret tt.

(** [if (options.deaf && !botHasPermission(...)) throw] *)
Definition editMember_deaf (guildID : string) (options : EditMemberOptions) : M unit :=
  if truthy_bool (deaf options) then
    let* allowed := botHasPermission guildID [DEAFEN_MEMBERS] in
    if negb allowed then throw MISSING_DEAFEN_MEMBERS else ret tt
  else ret tt.

Definition editMember (guildID memberID : string) (options : EditMemberOptions) : M unit :=
  editMember_nick guildID options ;;;
  editMember_roles guildID options ;;;
  editMember_mute guildID options ;;;
  editMember_deaf guildID options ;;;
  RequestManager_patch (GUILD_MEMBER guildID memberID) (OptionsBody options).

End Handlers.

(** ** What a run did *)

(** The calls that go over the network: requests of the request manager
    and message dispatch. *)
Definition is_network (c : Call) : bool :=
  match c with
  | CallRequest _ | CallSendMessage _ _ => true
  | _ => false
  end.

Definition network (t : list Call) : list Call := List.filter is_network t.

(** The requests that ask the remote API to create a DM channel. *)
Definition is_creation (c : Call) : bool :=
  match c with
  | CallRequest {| method := POST; endpoint := USER_CREATE_DM |} => true
  | _ => false
  end.

Definition creations (t : list Call) : nat := length (List.filter is_creation t).

(** The capability sets the permission gate was asked about. *)
Definition permissionChecks (t : list Call) : list (list Permissions) :=
  omap (λ c, match c with CallBotHasPermission _ ps => Some ps | _ => None end) t.

(** The hierarchy helpers that were consulted. *)
Definition is_hierarchy (c : Call) : bool :=
  match c with
  | CallHighestRole _ _ | CallHigherRolePosition _ _ _ => true
  | _ => false
  end.

(** [m] run from [w] throws [e], leaves the cache alone and puts nothing
    on the network. *)
Definition throws_offline {A} (m : M A) (w : World) (e : Errors) : Prop :=
  ∃ w', m w = (inl (Err e), w') ∧
        channels w' = channels w ∧
        network (trace w') = network (trace w).

(** *** The pre-checks of editMember, as conditions on its input *)

(** The nickname block lets the call go on: no nickname, an empty one, or
    one of at most 32 code units with the nickname capability held. *)
Definition nick_passes (env : Env) (guildID : string) (options : EditMemberOptions) : bool :=
  match nick options with
  | Some n =>
      if truthy_string (Some n)
      then (String.length n <=? 32)%nat && botHasPermission_of env guildID [MANAGE_NICKNAMES]
      else true
  | None => true
  end.

Definition roles_passes (env : Env) (guildID : string) (options : EditMemberOptions) : bool :=
  if truthy_object (roles options) then botHasPermission_of env guildID [MANAGE_ROLES] else true.

Definition mute_passes (env : Env) (guildID : string) (options : EditMemberOptions) : bool :=
  if truthy_bool (mute options) then botHasPermission_of env guildID [MUTE_MEMBERS] else true.

Definition deaf_passes (env : Env) (guildID : string) (options : EditMemberOptions) : bool :=
  if truthy_bool (deaf options) then botHasPermission_of env guildID [DEAFEN_MEMBERS] else true.

(** The capability questions a call of editMember asks when every
    pre-check passes, in program order. *)
Definition editMember_checks (guildID : string) (options : EditMemberOptions) : list Call :=
  (if truthy_string (nick options) then [CallBotHasPermission guildID [MANAGE_NICKNAMES]] else []) ++
  (if truthy_object (roles options) then [CallBotHasPermission guildID [MANAGE_ROLES]] else []) ++
  (if truthy_bool (mute options) then [CallBotHasPermission guildID [MUTE_MEMBERS]] else []) ++
  (if truthy_bool (deaf options) then [CallBotHasPermission guildID [DEAFEN_MEMBERS]] else []).

Definition patchRequest (guildID memberID : string) (options : EditMemberOptions) : Call :=
  CallRequest {| method := PATCH; endpoint := GUILD_MEMBER guildID memberID;
                 body := OptionsBody options |}.

(** *** The pre-checks of addRole, removeRole and kick, as conditions on their input *)

(** The hierarchy test of addRole and removeRole lets the call go on: the
    agent has no highest role, or the comparator ranks it above the role. *)
Definition role_hierarchy_passes (env : Env) (guildID roleID : string) : bool :=
  match highestRole_of env guildID (botID env) with
  | Some b => higherRolePosition_of env guildID (role_id b) roleID
  | None => true
  end.

(** The hierarchy test of kick lets the call go on: one of the two highest
    roles is missing, or the agent's position is above the member's. *)
Definition member_hierarchy_passes (env : Env) (guildID memberID : string) : bool :=
  match highestRole_of env guildID (botID env), highestRole_of env guildID memberID with
  | Some b, Some t => negb (position b <=? position t)%Z
  | _, _ => true
  end.

(** The calls addRole and removeRole make before their request. *)
Definition role_checks (env : Env) (guildID roleID : string) : list Call :=
  CallHighestRole guildID (botID env) ::
  match highestRole_of env guildID (botID env) with
  | Some b => [CallHigherRolePosition guildID (role_id b) roleID]
  | None => []
  end.

(** The requests of addRole, removeRole and kick. *)
Definition roleRequest (meth : Method) (guildID memberID roleID : string)
    (reason : option string) : Request :=
  {| method := meth; endpoint := GUILD_MEMBER_ROLE guildID memberID roleID;
     body := ReasonBody reason |}.

Definition kickRequest (guildID memberID : string) (reason : option string) : Request :=
  {| method := DELETE; endpoint := GUILD_MEMBER guildID memberID;
     body := ReasonBody reason |}.

(** The run of an async mutation from [w] once its hierarchy test has let
    it go on, [checks] being the hierarchy calls it has made: the one
    capability question, then its error if the capability is missing, or
    else the request, whose rejection by the transport passes through. *)
Definition capability_then_request (env : Env) (guildID : string) (perm : Permissions)
    (missing : Errors) (r : Request) (checks : list Call) (w : World)
  : (Thrown + unit) * World :=
  if botHasPermission_of env guildID [perm] then
    (if request_accepted env r then inr tt else inl (Rejected r),
     {| channels := channels w;
        trace := trace w ++ checks ++ [CallBotHasPermission guildID [perm]; CallRequest r] |})
  else
    (inl (Err missing),
     {| channels := channels w;
        trace := trace w ++ checks ++ [CallBotHasPermission guildID [perm]] |}).

(** A handler that leaves the cache alone and puts at most one call on the
    network: exactly one if it returned, none if it threw an error of its
    own, and the rejected request if it threw a rejection of the
    transport. *)
Definition one_shot {A} (m : M A) (w : World) : Prop :=
  channels (m w).2 = channels w ∧
  ∃ l, network (trace (m w).2) = network (trace w) ++ l ∧
       match (m w).1 with
       | inr _ => length l = 1%nat
       | inl (Err _) => l = []
       | inl (Rejected r) => l = [CallRequest r]
       end.

(** The options with another [channel_id]. *)
Definition with_channel_id (ch : option (option string)) (options : EditMemberOptions)
  : EditMemberOptions :=
  {| nick := nick options; roles := roles options; mute := mute options;
     deaf := deaf options; channel_id_opt := ch |}.

(** ** Avatar URLs *)

(** The fields of a member's user that the avatar functions read.  The
    avatar hash may be missing ([None]) or [null] ([Some None]). *)
Record UserPayload := {
  user_id : string;
  discriminator : string;
  avatar : option (option string)
}.

Record Member := { user : UserPayload }.

(** JavaScript truthiness of [avatar]: a non-empty string. *)
Definition avatar_hash (a : option (option string)) : option string :=
  match a with
  | Some (Some h) => if String.eqb h "" then None else Some h
  | _ => None
  end.

Definition digit_of (c : Ascii.ascii) : option Z :=
  let n := Z.of_nat (Ascii.nat_of_ascii c) in
  if (48 <=? n)%Z && (n <=? 57)%Z then Some (n - 48)%Z else None.

Fixpoint decimal (acc : Z) (s : string) : option Z :=
  match s with
  | EmptyString => Some acc
  | String c s' =>
      match digit_of c with
      | Some d => decimal (10 * acc + d) s'
      | None => None
      end
  end.

(** [Number(s)] on the strings of at most 15 decimal digits, where it is
    the decimal value, exactly ([Number("")] is 0).  Other strings are
    outside this model ([None]). *)
Definition Number_decimal (s : string) : option Z :=
  if (String.length s <=? 15)%nat then decimal 0 s else None.

Section Avatars.
(** The endpoints of constants/discord.ts and [formatImageURL] of
    utils/cdn.ts are not under src/; they are parameters. *)
Variable USER_AVATAR : string → string → string.
Variable USER_DEFAULT_AVATAR : Z → string.
Variable formatImageURL : string → Z → option string → string.

(** [None] when the default avatar is asked for with a discriminator that
    [Number_decimal] does not cover. *)
Definition rawAvatarURL (userID discriminator : string) (avatar : option (option string))
    (size : option Z) (format : option string) : option string :=
  match avatar_hash avatar with
  | Some h => Some (formatImageURL (USER_AVATAR userID h) (default 128%Z size) format)
  | None =>
      match Number_decimal discriminator with
      | Some n => Some (USER_DEFAULT_AVATAR (n mod 5)%Z)
      | None => None
      end
  end.

Definition avatarURL (member : Member) (size : option Z) (format : option string)
  : option string :=
  rawAvatarURL (user_id (user member)) (discriminator (user member))
    (avatar (user member)) (Some (default 128%Z size)) format.

End Avatars.

(** ** The permission helpers, from their specification *)

Module CachedGuilds.

(** Modelled from the spec: the cached guild state that
    utils/permissions.ts reads (the cache controller and the helpers are
    not under src/).  A guild holds its roles (role identifier to
    ordinal position), the role identifiers of each resident member, and
    the capability set of the acting agent. *)
Record Guild := {
  guild_roles : gmap string Z;
  guild_members : gmap string (list string);
  guild_botPermissions : list Permissions
}.

Definition roleOf (guild : Guild) (roleID : string) : option Role :=
  (λ p, {| role_id := roleID; position := p |}) <$> guild_roles guild !! roleID.

(** The role of maximal position in a list, [None] on the empty list. *)
Fixpoint maxRole (rs : list Role) : option Role :=
  match rs with
  | [] => None
  | r :: rs' =>
      match maxRole rs' with
      | Some r' => if (position r <? position r')%Z then Some r' else Some r
      | None => Some r
      end
  end.

(** Modelled from the spec: highestRole of utils/permissions.ts, "the role
    with maximal position among the agent's roles, or absent if the agent
    has no roles or the member is not resident in cached state". *)
Definition highestRole_spec (cache : gmap string Guild) (guildID memberID : string)
  : option Role :=
  guild ← cache !! guildID;
  roleIDs ← guild_members guild !! memberID;
  maxRole (omap (roleOf guild) roleIDs).

(** Modelled from the spec: higherRolePosition of utils/permissions.ts,
    "Comparator is strict: equal positions are not higher".  The spec does
    not say what happens to a role that is not cached; the comparison is
    taken to fail. *)
Definition higherRolePosition_spec (cache : gmap string Guild)
    (guildID roleID otherRoleID : string) : bool :=
  match cache !! guildID with
  | Some guild =>
      match guild_roles guild !! roleID, guild_roles guild !! otherRoleID with
      | Some p, Some q => (q <? p)%Z
      | _, _ => false
      end
  | None => false
  end.

(** Modelled from the spec: botHasPermission of utils/permissions.ts,
    "returns false when the acting agent's derived PermissionSet does not
    cover every required capability", and false without cached guild
    data. *)
Definition botHasPermission_spec (cache : gmap string Guild)
    (guildID : string) (perms : list Permissions) : bool :=
  match cache !! guildID with
  | Some guild => forallb (λ p, bool_decide (p ∈ guild_botPermissions guild)) perms
  | None => false
  end.

(** The environment whose permission helpers read [cache] for the agent
    [bot]; the DM side is that of [base]. *)
Definition env (bot : string) (cache : gmap string Guild) (base : Env) : Env := {|
  botID := bot;
  highestRole_of := highestRole_spec cache;
  higherRolePosition_of := higherRolePosition_spec cache;
  botHasPermission_of := botHasPermission_spec cache;
  createChannel_of := createChannel_of base;
  createDM_response := createDM_response base;
  request_accepted := request_accepted base;
  channelCreateEvent := channelCreateEvent base
|}.

End CachedGuilds.

(** ** A concrete deployment, for running the handlers *)

Module Demo.

(** structures.createChannel keeps the identifier of the payload. *)
Definition createChannel (d : DMChannelCreatePayload) : Channel :=
  {| channel_id := payload_id d; channel_body := payload_body d |}.

(** The remote API answers every DM creation and accepts every request;
    the gateway event caches the new channel under the channel's own
    identifier. *)
Definition base : Env := {|
  botID := "bot";
  highestRole_of := λ _ _, None;
  higherRolePosition_of := λ _ _ _, false;
  botHasPermission_of := λ _ _, false;
  createChannel_of := createChannel;
  createDM_response := λ u, Some {| payload_id := "dm-" +:+ u; payload_body := "{}" |};
  request_accepted := λ _, true;
  channelCreateEvent := λ d c, <[payload_id d := createChannel d]> c
|}.

(** A remote API that rejects every request. *)
Definition offline : Env := {|
  botID := "bot";
  highestRole_of := λ _ _, None;
  higherRolePosition_of := λ _ _ _, false;
  botHasPermission_of := λ _ _, false;
  createChannel_of := createChannel;
  createDM_response := λ _, None;
  request_accepted := λ _, false;
  channelCreateEvent := λ _ c, c
|}.

Definition guild (botRoles : list string) (perms : list Permissions) : CachedGuilds.Guild := {|
  CachedGuilds.guild_roles :=
    {[ "everyone" := 0; "helper" := 3; "mod" := 5; "senior" := 5; "admin" := 10 ]};
  CachedGuilds.guild_members :=
    {[ "bot" := botRoles; "alice" := ["everyone"; "mod"]; "carol" := ["admin"] ]};
  CachedGuilds.guild_botPermissions := perms
|}.

Definition env (botRoles : list string) (perms : list Permissions) : Env :=
  CachedGuilds.env "bot" {[ "g" := guild botRoles perms ]} base.

Definition w0 : World := {| channels := ∅; trace := [] |}.

(** A world in which the DM channel of alice is cached under her
    identifier. *)
Definition cached : World :=
  {| channels := {[ "alice" := {| channel_id := "dm-alice"; channel_body := "{}" |} ]};
     trace := [] |}.

End Demo.

Module Samples.

Definition USER_AVATAR (id icon : string) : string := "avatars/" +:+ id +:+ "/" +:+ icon.

Definition USER_DEFAULT_AVATAR (icon : Z) : string :=
  "embed/avatars/" +:+ String (Ascii.ascii_of_nat (48 + Z.to_nat icon)) "" +:+ ".png".

Definition formatImageURL (url : string) (size : Z) (format : option string) : string :=
  url +:+ "." +:+ default "jpg" format +:+ "?size=" +:+ pretty size.

Definition alice (avatar : option (option string)) : Member :=
  {| user := {| user_id := "alice"; discriminator := "0007"; avatar := avatar |} |}.

(** A world in which the DM channel of bob, and nothing else, is cached. *)
Definition cached_bob : World :=
  {| channels := {[ "bob" := {| channel_id := "dm-bob"; channel_body := "{}" |} ]};
     trace := [] |}.

End Samples.

(** ** Running the monad *)

Ltac unfold_handlers :=
  unfold addRole, removeRole, kick, sendDirectMessage, editMember,
    editMember_nick, editMember_roles, editMember_mute, editMember_deaf,
    highestRole, higherRolePosition, botHasPermission,
    cacheHandlers_get, cacheHandlers_delete, cacheHandlers_set,
    structures_createChannel, RequestManager_put, RequestManager_delete,
    RequestManager_send, RequestManager_patch, RequestManager_post_createDM,
    sendMessage,
    bind, ret, throw, call in *.

Example demo_kick_runs :
  kick (Demo.env ["admin"] [KICK_MEMBERS]) "g" "alice" (Some "spam") Demo.w0 =
  (inr tt,
   {| channels := ∅;
      trace := [CallHighestRole "g" "bot"; CallHighestRole "g" "alice";
                CallBotHasPermission "g" [KICK_MEMBERS];
                CallRequest {| method := DELETE; endpoint := GUILD_MEMBER "g" "alice";
                               body := ReasonBody (Some "spam") |}] |}).
Proof. vm_compute. reflexivity. Qed.

Lemma network_app (t u : list Call) : network (t ++ u) = network t ++ network u.
Proof. apply List.filter_app. Qed.

Lemma network_log_offline (c : Call) (w : World) :
  is_network c = false → network (trace (log c w)) = network (trace w).
Proof.
  intros Hc. cbn. rewrite network_app. cbn. rewrite Hc. apply app_nil_r.
Qed.

Lemma channels_log (c : Call) (w : World) : channels (log c w) = channels w.
Proof. reflexivity. Qed.

Lemma truthy_string_length (n : string) :
  (32 < String.length n)%nat → truthy_string (Some n) = true.
Proof. destruct n; cbn; [lia | done]. Qed.

(** *** Tactics *)

(** Reduce the projections of the options and the truthiness tests, and
    nothing else. *)
Ltac step := cbn [nick roles mute deaf channel_id_opt truthy_string truthy_bool
                  truthy_object negb fst snd] in *.

(** Every shape of the options: each field absent or present, flags true
    or false, the nickname empty or not, too long or not. *)
Ltac case_options options :=
  destruct options as [[n|] [rs|] [[|]|] [[|]|] ch]; step;
  try (destruct (String.eqb n "") eqn:?; step);
  try (destruct (32 <? String.length n)%nat eqn:?; step).

(** Case analysis on each answer of the permission gate in the goal. *)
Ltac case_gate env guildID :=
  repeat match goal with
  | |- context [botHasPermission_of env guildID ?ps] =>
      destruct (botHasPermission_of env guildID ps) eqn:?; step
  end.

Ltac unfold_passes :=
  unfold nick_passes, roles_passes, mute_passes, deaf_passes, throws_offline in *.

(** A nickname cannot be both longer than 32 and at most 32. *)
Ltac contra_length :=
  match goal with
  | H1 : (32 <? ?x)%nat = true, H2 : ((?x <=? 32)%nat && _) = true |- _ =>
      apply andb_prop in H2 as [H2 _]; apply Nat.leb_le in H2;
      apply Nat.ltb_lt in H1; lia
  end.

Ltac contra_gate :=
  match goal with
  | H : _ && false = true |- _ => rewrite andb_false_r in H; discriminate H
  end.

(** Close [throws_offline] once the run has been computed. *)
Ltac solve_offline :=
  eexists; split; [reflexivity |];
  split; [reflexivity | rewrite ?network_log_offline by reflexivity; reflexivity].

(** Membership in a computed list of capability questions. *)
Ltac only_asked :=
  let ps := fresh "ps" in let Hps := fresh "Hps" in
  cbn; intros ps Hps;
  repeat (apply elem_of_cons in Hps as [Hps | Hps]; [subst; reflexivity |]);
  apply elem_of_nil in Hps; contradiction.

Ltac not_asked :=
  cbn; repeat (apply not_elem_of_cons; split; [discriminate |]);
  apply not_elem_of_nil.

(** Exhibit the calls a computed run appended to the trace. *)
Ltac trace_suffix :=
  first [ exists []; split; [cbn [trace log]; rewrite ?app_nil_r; reflexivity |]
        | eexists; split; [cbn [trace log]; rewrite <- ?app_assoc; reflexivity |] ].

(** ** editMember *)

(** C6: a nickname longer than 32 is refused with NICKNAMES_MAX_LENGTH
    and the world is left exactly as it was: no capability predicate has
    been evaluated and no request has been issued (the trace is
    unchanged). *)
Theorem editMember_long_nickname (env : Env) (w : World)
    (guildID memberID : string) (options : EditMemberOptions) (n : string) :
  nick options = Some n →
  (32 < String.length n)%nat →
  editMember env guildID memberID options w = (inl (Err NICKNAMES_MAX_LENGTH), w).
Proof.
  intros Hn Hlen. unfold_handlers. rewrite Hn.
  rewrite (truthy_string_length n Hlen).
  apply Nat.ltb_lt in Hlen. rewrite Hlen. reflexivity.
Qed.

Lemma editMember_long_nickname_witness :
  editMember (Demo.env ["admin"] [MANAGE_NICKNAMES]) "g" "alice"
    {| nick := Some "a nickname that is far too long to be accepted";
       roles := None; mute := Some true; deaf := None; channel_id_opt := None |}
    Demo.w0
  = (inl (Err NICKNAMES_MAX_LENGTH), Demo.w0).
Proof.
  apply (editMember_long_nickname _ _ _ _ _
           "a nickname that is far too long to be accepted").
  - reflexivity.
  - vm_compute. lia.
Defined.

Lemma editMember_throws_inv (env : Env) (w w' : World)
    (guildID memberID : string) (options : EditMemberOptions) (t : Thrown) :
  editMember env guildID memberID options w = (inl t, w') →
  (∃ e, t = Err e) ∧ channels w' = channels w ∧ network (trace w') = network (trace w).
Proof.
  unfold_handlers.
  case_options options; case_gate env guildID; intros H;
    inversion H; subst; clear H;
    (split; [eexists; reflexivity | split; [reflexivity |]]);
    rewrite ?network_log_offline by reflexivity; reflexivity.
Qed.

(** When every pre-check passes, editMember asks exactly the capability
    questions of the fields that are set and then sends the patch. *)
Lemma editMember_dispatches (env : Env) (w : World)
    (guildID memberID : string) (options : EditMemberOptions) :
  nick_passes env guildID options = true →
  roles_passes env guildID options = true →
  mute_passes env guildID options = true →
  deaf_passes env guildID options = true →
  editMember env guildID memberID options w =
  (inr tt, {| channels := channels w;
              trace := trace w ++ editMember_checks guildID options
                         ++ [patchRequest guildID memberID options] |}).
Proof.
  unfold nick_passes, roles_passes, mute_passes, deaf_passes, editMember_checks,
    patchRequest.
  unfold_handlers. unfold log.
  case_options options; intros Hn Hr Hm Hd;
    rewrite ?Hr, ?Hm, ?Hd;
    try (apply andb_prop in Hn as [Hlen Hn]; rewrite ?Hn);
    try (apply Nat.leb_le in Hlen;
         match goal with H : (32 <? _)%nat = true |- _ => apply Nat.ltb_lt in H end;
         lia);
    cbn [negb channels trace app]; rewrite <- ?app_assoc; reflexivity.
Qed.

(** Conversely a call that returns passed every pre-check. *)
Lemma editMember_returns_inv (env : Env) (w w' : World)
    (guildID memberID : string) (options : EditMemberOptions) :
  editMember env guildID memberID options w = (inr tt, w') →
  nick_passes env guildID options = true ∧ roles_passes env guildID options = true ∧
  mute_passes env guildID options = true ∧ deaf_passes env guildID options = true.
Proof.
  unfold nick_passes, roles_passes, mute_passes, deaf_passes.
  unfold_handlers.
  case_options options; case_gate env guildID; intros H; try discriminate;
    repeat split; try reflexivity;
    try (apply andb_true_intro; split; [|reflexivity]);
    try (apply Nat.leb_le; apply Nat.ltb_ge; assumption).
Qed.

(** A call of editMember one of whose pre-checks fails throws and stays
    offline. *)
Lemma editMember_fails (env : Env) (w : World)
    (guildID memberID : string) (options : EditMemberOptions) :
  nick_passes env guildID options && roles_passes env guildID options &&
    mute_passes env guildID options && deaf_passes env guildID options = false →
  ∃ e, throws_offline (editMember env guildID memberID options) w e.
Proof.
  intros Hfail.
  destruct (editMember env guildID memberID options w) as [[t|[]] w'] eqn:Hrun.
  - destruct (editMember_throws_inv _ _ _ _ _ _ _ Hrun) as [[e ->] [Hc Hn]].
    exists e, w'. auto.
  - destruct (editMember_returns_inv _ _ _ _ _ _ Hrun) as (Hn & Hr & Hm & Hd).
    rewrite Hn, Hr, Hm, Hd in Hfail. discriminate.
Qed.

(** C7: editMember is all-or-nothing.  Whenever one of the pre-checks of
    the request fails the call throws, the cache is untouched and nothing
    is put on the network; and with the nickname capability held and the
    voice-mute capability missing, the request nick "ok", mute true throws
    MISSING_MUTE_MEMBERS without sending the patch. *)
Theorem editMember_all_or_nothing (env : Env) (w : World)
    (guildID memberID : string) (options : EditMemberOptions) :
  (nick_passes env guildID options && roles_passes env guildID options &&
     mute_passes env guildID options && deaf_passes env guildID options = false →
   ∃ e, throws_offline (editMember env guildID memberID options) w e) ∧
  (botHasPermission_of env guildID [MANAGE_NICKNAMES] = true →
   botHasPermission_of env guildID [MUTE_MEMBERS] = false →
   throws_offline
     (editMember env guildID memberID
        {| nick := Some "ok"; roles := None; mute := Some true; deaf := None;
           channel_id_opt := None |})
     w MISSING_MUTE_MEMBERS).
Proof.
  split; [apply editMember_fails |].
  intros Hnick Hmute. unfold throws_offline. unfold_handlers. step.
  rewrite Hnick. step. rewrite Hmute. step. solve_offline.
Qed.

Lemma editMember_all_or_nothing_witness :
  (∃ e, throws_offline
          (editMember (Demo.env [] [MANAGE_NICKNAMES]) "g" "alice"
             {| nick := Some "ok"; roles := None; mute := Some true; deaf := None;
                channel_id_opt := None |})
          Demo.w0 e) ∧
  throws_offline
    (editMember (Demo.env [] [MANAGE_NICKNAMES]) "g" "alice"
       {| nick := Some "ok"; roles := None; mute := Some true; deaf := None;
          channel_id_opt := None |})
    Demo.w0 MISSING_MUTE_MEMBERS.
Proof.
  destruct (editMember_all_or_nothing (Demo.env [] [MANAGE_NICKNAMES]) Demo.w0
              "g" "alice"
              {| nick := Some "ok"; roles := None; mute := Some true; deaf := None;
                 channel_id_opt := None |}) as [Hany Hscenario].
  split.
  - apply Hany. vm_compute. reflexivity.
  - apply Hscenario; vm_compute; reflexivity.
Defined.

(** C8: a request that sets none of roles, mute and deaf asks the
    permission gate about MANAGE_NICKNAMES at most, and two runs whose
    environments agree on that one answer are equal, whatever the other
    capability bits are. *)
Theorem editMember_nickname_only (env env' : Env) (w : World)
    (guildID memberID : string) (options : EditMemberOptions) :
  roles options = None →
  mute options = None →
  deaf options = None →
  botHasPermission_of env guildID [MANAGE_NICKNAMES] =
    botHasPermission_of env' guildID [MANAGE_NICKNAMES] →
  editMember env guildID memberID options w = editMember env' guildID memberID options w ∧
  ∃ cs, trace (editMember env guildID memberID options w).2 = trace w ++ cs ∧
        ∀ ps, ps ∈ permissionChecks cs → ps = [MANAGE_NICKNAMES].
Proof.
  destruct options as [nk rs mt df ch]. cbn [roles mute deaf].
  intros -> -> -> Hagree. unfold_handlers. step.
  rewrite <- Hagree. split; [reflexivity |].
  destruct nk as [n|]; step;
    [destruct (String.eqb n "") eqn:?; step;
      [| destruct (32 <? String.length n)%nat eqn:?; step;
         [| destruct (botHasPermission_of env guildID [MANAGE_NICKNAMES]); step]] |];
    trace_suffix; only_asked.
Qed.

Lemma editMember_nickname_only_witness :
  editMember (Demo.env [] [MANAGE_NICKNAMES]) "g" "alice"
    {| nick := Some "Al"; roles := None; mute := None; deaf := None;
       channel_id_opt := None |} Demo.w0
  = editMember
      (Demo.env ["admin"] [MANAGE_NICKNAMES; MANAGE_ROLES; MUTE_MEMBERS; DEAFEN_MEMBERS])
      "g" "alice"
      {| nick := Some "Al"; roles := None; mute := None; deaf := None;
         channel_id_opt := None |} Demo.w0.
Proof.
  refine (proj1 (editMember_nickname_only _ _ _ _ _ _ _ _ _ _));
    vm_compute; reflexivity.
Defined.

(** C10: with the empty string as nickname the nickname block is skipped:
    no MANAGE_NICKNAMES question is asked and neither nickname error can be
    the outcome; and when the remaining pre-checks pass the patch is sent
    with the options as given, empty nickname included. *)
Theorem editMember_empty_nickname (env : Env) (w : World)
    (guildID memberID : string) (options : EditMemberOptions) :
  nick options = Some "" →
  (∃ cs, trace (editMember env guildID memberID options w).2 = trace w ++ cs ∧
         [MANAGE_NICKNAMES] ∉ permissionChecks cs) ∧
  (editMember env guildID memberID options w).1 ≠ inl (Err NICKNAMES_MAX_LENGTH) ∧
  (editMember env guildID memberID options w).1 ≠ inl (Err MISSING_MANAGE_NICKNAMES) ∧
  (roles_passes env guildID options = true →
   mute_passes env guildID options = true →
   deaf_passes env guildID options = true →
   ([MANAGE_NICKNAMES] ∉ permissionChecks (editMember_checks guildID options)) ∧
   (editMember env guildID memberID options w =
    (inr tt, {| channels := channels w;
                trace := trace w ++ editMember_checks guildID options
                           ++ [patchRequest guildID memberID options] |}))).
Proof.
  intros Hn. repeat split.
  - destruct options as [nk rs mt df ch]. cbn [nick] in Hn. subst nk.
    unfold_handlers. step. cbn [String.eqb negb].
    destruct rs as [rs|], mt as [[|]|], df as [[|]|]; step;
      case_gate env guildID; trace_suffix; not_asked.
  - destruct options as [nk rs mt df ch]. cbn [nick] in Hn. subst nk.
    unfold_handlers. step. cbn [String.eqb negb].
    destruct rs as [rs|], mt as [[|]|], df as [[|]|]; step;
      case_gate env guildID; cbn; discriminate.
  - destruct options as [nk rs mt df ch]. cbn [nick] in Hn. subst nk.
    unfold_handlers. step. cbn [String.eqb negb].
    destruct rs as [rs|], mt as [[|]|], df as [[|]|]; step;
      case_gate env guildID; cbn; discriminate.
  - unfold editMember_checks. rewrite Hn.
    destruct (roles options), (mute options) as [[|]|], (deaf options) as [[|]|];
      not_asked.
  - apply editMember_dispatches; try assumption.
    unfold nick_passes. rewrite Hn. reflexivity.
Qed.

Lemma editMember_empty_nickname_witness :
  editMember Demo.base "g" "alice"
    {| nick := Some ""; roles := None; mute := None; deaf := None;
       channel_id_opt := None |} Demo.w0
  = (inr tt,
     {| channels := ∅;
        trace := [patchRequest "g" "alice"
                    {| nick := Some ""; roles := None; mute := None; deaf := None;
                       channel_id_opt := None |}] |}).
Proof.
  refine (proj2 (proj2 (proj2 (proj2
    (editMember_empty_nickname Demo.base Demo.w0 "g" "alice"
       {| nick := Some ""; roles := None; mute := None; deaf := None;
          channel_id_opt := None |} _))) _ _ _));
    reflexivity.
Defined.

(** Not every provided mute flag is checked against the voice-mute
    capability: without the capability the request mute false is patched
    through, and with mute true next to an overlong nickname the error is
    the nickname's. *)
Lemma editMember_mute_flag_counterexample :
  botHasPermission_of Demo.base "g" [MUTE_MEMBERS] = false ∧
  editMember Demo.base "g" "alice"
    {| nick := None; roles := None; mute := Some false; deaf := None;
       channel_id_opt := None |} Demo.w0
  = (inr tt,
     {| channels := ∅;
        trace := [patchRequest "g" "alice"
                    {| nick := None; roles := None; mute := Some false; deaf := None;
                       channel_id_opt := None |}] |}) ∧
  editMember Demo.base "g" "alice"
    {| nick := Some "a nickname that is far too long to be accepted";
       roles := None; mute := Some true; deaf := None; channel_id_opt := None |}
    Demo.w0
  = (inl (Err NICKNAMES_MAX_LENGTH), Demo.w0).
Proof. repeat split. Qed.

(** C2, amended: a mute flag that is true, with the voice-mute capability
    missing, makes editMember throw before anything is sent, and the error
    is MISSING_MUTE_MEMBERS once the nickname and role-list checks have
    passed; likewise a deaf flag that is true, with the voice-deafen
    capability missing, makes it throw offline, with
    MISSING_DEAFEN_MEMBERS once the nickname, role-list and mute checks
    have passed. *)
Theorem editMember_mute_deaf_checked (env : Env) (w : World)
    (guildID memberID : string) (options : EditMemberOptions) :
  (mute options = Some true →
   botHasPermission_of env guildID [MUTE_MEMBERS] = false →
   (∃ e, throws_offline (editMember env guildID memberID options) w e) ∧
   (nick_passes env guildID options = true →
    roles_passes env guildID options = true →
    throws_offline (editMember env guildID memberID options) w MISSING_MUTE_MEMBERS)) ∧
  (deaf options = Some true →
   botHasPermission_of env guildID [DEAFEN_MEMBERS] = false →
   (∃ e, throws_offline (editMember env guildID memberID options) w e) ∧
   (nick_passes env guildID options = true →
    roles_passes env guildID options = true →
    mute_passes env guildID options = true →
    throws_offline (editMember env guildID memberID options) w MISSING_DEAFEN_MEMBERS)).
Proof.
  split.
  - intros Hm Hgate. split.
    + apply editMember_fails. unfold mute_passes. rewrite Hm; cbn.
      rewrite Hgate. rewrite andb_false_r. reflexivity.
    + revert Hm Hgate. unfold_passes. unfold_handlers.
      case_options options; case_gate env guildID; intros;
        try discriminate; try contra_length; try contra_gate; solve_offline.
  - intros Hd Hgate. split.
    + apply editMember_fails. unfold deaf_passes. rewrite Hd; cbn.
      rewrite Hgate. apply andb_false_r.
    + revert Hd Hgate. unfold_passes. unfold_handlers.
      case_options options; case_gate env guildID; intros;
        try discriminate; try contra_length; try contra_gate; solve_offline.
Qed.

Lemma editMember_mute_deaf_checked_witness :
  throws_offline
    (editMember (Demo.env [] [MANAGE_NICKNAMES; MANAGE_ROLES]) "g" "alice"
       {| nick := Some "Al"; roles := Some ["mod"]; mute := Some true;
          deaf := Some true; channel_id_opt := None |})
    Demo.w0 MISSING_MUTE_MEMBERS ∧
  throws_offline
    (editMember (Demo.env [] [MUTE_MEMBERS]) "g" "alice"
       {| nick := None; roles := None; mute := Some true;
          deaf := Some true; channel_id_opt := None |})
    Demo.w0 MISSING_DEAFEN_MEMBERS.
Proof.
  split.
  - refine (proj2 (proj1 (editMember_mute_deaf_checked _ _ _ _ _) _ _) _ _);
      vm_compute; reflexivity.
  - refine (proj2 (proj2 (editMember_mute_deaf_checked _ _ _ _ _) _ _) _ _ _);
      vm_compute; reflexivity.
Defined.

(** editMember reads nothing of its environment but the permission gate. *)
Lemma editMember_gate_only (env env' : Env) (w : World)
    (guildID memberID : string) (options : EditMemberOptions) :
  (∀ ps, botHasPermission_of env' guildID ps = botHasPermission_of env guildID ps) →
  editMember env' guildID memberID options w = editMember env guildID memberID options w.
Proof.
  intros Hgate. unfold_handlers. rewrite !Hgate. reflexivity.
Qed.

(** editMember never calls highestRole or higherRolePosition. *)
Lemma editMember_no_hierarchy (env : Env) (w : World)
    (guildID memberID : string) (options : EditMemberOptions) :
  ∃ cs, trace (editMember env guildID memberID options w).2 = trace w ++ cs ∧
        List.filter is_hierarchy cs = [].
Proof.
  unfold_handlers.
  case_options options; case_gate env guildID; trace_suffix; reflexivity.
Qed.

(** A role-list change through editMember is not subject to the role
    hierarchy: the agent's highest role is at position 3, the target's at
    10, the new role list names the role at position 10, and the patch is
    sent. *)
Lemma editMember_roles_counterexample :
  highestRole_of (Demo.env ["helper"] [MANAGE_ROLES]) "g" "bot"
    = Some {| role_id := "helper"; position := 3 |} ∧
  highestRole_of (Demo.env ["helper"] [MANAGE_ROLES]) "g" "carol"
    = Some {| role_id := "admin"; position := 10 |} ∧
  higherRolePosition_of (Demo.env ["helper"] [MANAGE_ROLES]) "g" "helper" "admin" = false ∧
  editMember (Demo.env ["helper"] [MANAGE_ROLES]) "g" "carol"
    {| nick := None; roles := Some ["admin"; "helper"]; mute := None; deaf := None;
       channel_id_opt := None |} Demo.w0
  = (inr tt,
     {| channels := ∅;
        trace := [CallBotHasPermission "g" [MANAGE_ROLES];
                  patchRequest "g" "carol"
                    {| nick := None; roles := Some ["admin"; "helper"]; mute := None;
                       deaf := None; channel_id_opt := None |}] |}).
Proof. repeat split. Qed.

(** C3, amended: a role-list change through editMember is gated by the
    role-management capability alone.  Without it the call throws before
    dispatch (MISSING_MANAGE_ROLES once the nickname check has passed);
    the hierarchy helpers are never called, and the run is the same in any
    environment whose permission gate answers alike, whatever the role
    positions are. *)
Theorem editMember_roles_capability_only (env env' : Env) (w : World)
    (guildID memberID : string) (options : EditMemberOptions) (roleIDs : list string) :
  roles options = Some roleIDs →
  (botHasPermission_of env guildID [MANAGE_ROLES] = false →
   (∃ e, throws_offline (editMember env guildID memberID options) w e) ∧
   (nick_passes env guildID options = true →
    throws_offline (editMember env guildID memberID options) w MISSING_MANAGE_ROLES)) ∧
  (∃ cs, trace (editMember env guildID memberID options w).2 = trace w ++ cs ∧
         List.filter is_hierarchy cs = []) ∧
  ((∀ ps, botHasPermission_of env' guildID ps = botHasPermission_of env guildID ps) →
   editMember env' guildID memberID options w = editMember env guildID memberID options w).
Proof.
  intros Hrs. split; [| split].
  - intros Hgate. split.
    + apply editMember_fails. unfold roles_passes. rewrite Hrs; cbn.
      rewrite Hgate. rewrite andb_false_r. reflexivity.
    + revert Hrs Hgate. unfold_passes. unfold_handlers.
      case_options options; case_gate env guildID; intros;
        try discriminate; try contra_length; try contra_gate; solve_offline.
  - apply editMember_no_hierarchy.
  - apply editMember_gate_only.
Qed.

Lemma editMember_roles_capability_only_witness :
  throws_offline
    (editMember (Demo.env ["admin"] [MANAGE_NICKNAMES]) "g" "alice"
       {| nick := Some "Al"; roles := Some ["helper"]; mute := None; deaf := None;
          channel_id_opt := None |})
    Demo.w0 MISSING_MANAGE_ROLES ∧
  editMember (Demo.env ["admin"] [MANAGE_ROLES]) "g" "carol"
    {| nick := None; roles := Some ["admin"; "helper"]; mute := None; deaf := None;
       channel_id_opt := None |} Demo.w0
  = editMember (Demo.env ["helper"] [MANAGE_ROLES]) "g" "carol"
      {| nick := None; roles := Some ["admin"; "helper"]; mute := None; deaf := None;
         channel_id_opt := None |} Demo.w0.
Proof.
  split.
  - refine (proj2 (proj1 (editMember_roles_capability_only _ Demo.base _ _ _ _
                            ["helper"] _) _) _);
      vm_compute; reflexivity.
  - refine (proj2 (proj2 (editMember_roles_capability_only _ _ _ _ _ _
                            ["admin"; "helper"] _)) _).
    + reflexivity.
    + intros ps. reflexivity.
Defined.

(** ** The permission helpers of the specification *)

Lemma maxRole_elem (rs : list Role) (r : Role) :
  CachedGuilds.maxRole rs = Some r → r ∈ rs.
Proof.
  revert r. induction rs as [|x rs IH]; intros r; cbn.
  - discriminate.
  - destruct (CachedGuilds.maxRole rs) as [r'|].
    + destruct (position x <? position r')%Z; intros [= <-].
      * apply list_elem_of_further. apply IH. reflexivity.
      * apply list_elem_of_here.
    + intros [= <-]. apply list_elem_of_here.
Qed.

(** The role found by maxRole is of maximal position. *)
Lemma maxRole_max (rs : list Role) (r x : Role) :
  CachedGuilds.maxRole rs = Some r → x ∈ rs → position x <= position r.
Proof.
  revert r. induction rs as [|y rs IH]; intros r; cbn.
  - discriminate.
  - intros Hmax Hx.
    destruct (CachedGuilds.maxRole rs) as [r'|] eqn:Hrs.
    + specialize (IH r' eq_refl).
      destruct (position y <? position r')%Z eqn:Hlt; injection Hmax as <-.
      * apply Z.ltb_lt in Hlt.
        apply elem_of_cons in Hx as [-> | Hx]; [lia | auto].
      * apply Z.ltb_ge in Hlt.
        apply elem_of_cons in Hx as [-> | Hx]; [lia |].
        specialize (IH Hx). lia.
    + injection Hmax as <-.
      apply elem_of_cons in Hx as [-> | Hx]; [lia |].
      destruct rs as [|z rs]; [by apply elem_of_nil in Hx |].
      cbn in Hrs. destruct (CachedGuilds.maxRole rs) as [r''|];
        [destruct (position z <? position r'')%Z |]; discriminate.
Qed.

(** The highest role of a member is a cached role of the guild. *)
Lemma highestRole_spec_cached (cache : gmap string CachedGuilds.Guild)
    (guildID memberID : string) (guild : CachedGuilds.Guild) (b : Role) :
  cache !! guildID = Some guild →
  CachedGuilds.highestRole_spec cache guildID memberID = Some b →
  CachedGuilds.guild_roles guild !! role_id b = Some (position b).
Proof.
  intros Hg. unfold CachedGuilds.highestRole_spec. rewrite Hg. cbn.
  destruct (CachedGuilds.guild_members guild !! memberID) as [ids|]; cbn;
    [| discriminate].
  intros Hmax. apply maxRole_elem in Hmax.
  apply list_elem_of_omap in Hmax as (id & _ & Hid).
  unfold CachedGuilds.roleOf in Hid.
  destruct (CachedGuilds.guild_roles guild !! id) as [p|] eqn:Hp; cbn in Hid;
    [| discriminate].
  injection Hid as <-. exact Hp.
Qed.

(** The comparator is strict on cached roles. *)
Lemma higherRolePosition_spec_strict (cache : gmap string CachedGuilds.Guild)
    (guildID roleID otherRoleID : string) (guild : CachedGuilds.Guild) (p q : Z) :
  cache !! guildID = Some guild →
  CachedGuilds.guild_roles guild !! roleID = Some p →
  CachedGuilds.guild_roles guild !! otherRoleID = Some q →
  CachedGuilds.higherRolePosition_spec cache guildID roleID otherRoleID = (q <? p)%Z.
Proof.
  intros Hg Hp Hq. unfold CachedGuilds.higherRolePosition_spec.
  rewrite Hg, Hp, Hq. reflexivity.
Qed.

Lemma botHasPermission_spec_missing (cache : gmap string CachedGuilds.Guild)
    (guildID : string) (guild : CachedGuilds.Guild) (p : Permissions) :
  cache !! guildID = Some guild →
  p ∉ CachedGuilds.guild_botPermissions guild →
  CachedGuilds.botHasPermission_spec cache guildID [p] = false.
Proof.
  intros Hg Hp. unfold CachedGuilds.botHasPermission_spec. rewrite Hg. cbn.
  rewrite bool_decide_eq_false_2 by assumption. reflexivity.
Qed.

(** ** addRole, removeRole and kick *)

Lemma addRole_too_low (env : Env) (w : World)
    (guildID memberID roleID : string) (reason : option string) (b : Role) :
  highestRole_of env guildID (botID env) = Some b →
  higherRolePosition_of env guildID (role_id b) roleID = false →
  throws_offline (addRole env guildID memberID roleID reason) w BOTS_HIGHEST_ROLE_TOO_LOW.
Proof.
  intros Hb Hcmp. unfold throws_offline. unfold_handlers. cbn [log].
  rewrite Hb. cbn [log role_id]. rewrite Hcmp. cbn [negb]. solve_offline.
Qed.

Lemma removeRole_too_low (env : Env) (w : World)
    (guildID memberID roleID : string) (reason : option string) (b : Role) :
  highestRole_of env guildID (botID env) = Some b →
  higherRolePosition_of env guildID (role_id b) roleID = false →
  throws_offline (removeRole env guildID memberID roleID reason) w BOTS_HIGHEST_ROLE_TOO_LOW.
Proof.
  intros Hb Hcmp. unfold throws_offline. unfold_handlers. cbn [log].
  rewrite Hb. cbn [log role_id]. rewrite Hcmp. cbn [negb]. solve_offline.
Qed.

Lemma kick_too_low (env : Env) (w : World)
    (guildID memberID : string) (reason : option string) (b t : Role) :
  highestRole_of env guildID (botID env) = Some b →
  highestRole_of env guildID memberID = Some t →
  position b <= position t →
  throws_offline (kick env guildID memberID reason) w BOTS_HIGHEST_ROLE_TOO_LOW.
Proof.
  intros Hb Ht Hle. unfold throws_offline. unfold_handlers. cbn [log].
  rewrite Hb, Ht. apply Z.leb_le in Hle. rewrite Hle. solve_offline.
Qed.

(** The run of the three async mutations once the hierarchy test has
    passed. *)

Ltac case_hierarchy env guildID :=
  repeat match goal with
  | |- context [highestRole_of env guildID ?m] =>
      destruct (highestRole_of env guildID m) as [?|] eqn:?; cbn [role_id negb]
  | |- context [higherRolePosition_of env guildID ?a ?b] =>
      destruct (higherRolePosition_of env guildID a b) eqn:?; cbn [role_id negb]
  | |- context [(position ?a <=? position ?b)%Z] =>
      destruct (position a <=? position b)%Z eqn:?; cbn [role_id negb]
  end.

Ltac case_transport env :=
  repeat match goal with
  | |- context [request_accepted env ?r] =>
      destruct (request_accepted env r) eqn:?
  end.

Ltac same_run :=
  cbn [channels trace app andb]; rewrite <- ?app_assoc;
  first [reflexivity | discriminate].

Lemma addRole_run (env : Env) (w : World)
    (guildID memberID roleID : string) (reason : option string) :
  role_hierarchy_passes env guildID roleID = true →
  addRole env guildID memberID roleID reason w =
  capability_then_request env guildID MANAGE_ROLES MISSING_MANAGE_ROLES
    (roleRequest PUT guildID memberID roleID reason) (role_checks env guildID roleID) w.
Proof.
  unfold role_hierarchy_passes, role_checks, capability_then_request, roleRequest.
  unfold_handlers. unfold log. cbn [channels trace].
  case_hierarchy env guildID; case_gate env guildID; case_transport env; intros H;
    try discriminate H; same_run.
Qed.

Lemma removeRole_run (env : Env) (w : World)
    (guildID memberID roleID : string) (reason : option string) :
  role_hierarchy_passes env guildID roleID = true →
  removeRole env guildID memberID roleID reason w =
  capability_then_request env guildID MANAGE_ROLES MISSING_MANAGE_ROLES
    (roleRequest DELETE guildID memberID roleID reason) (role_checks env guildID roleID) w.
Proof.
  unfold role_hierarchy_passes, role_checks, capability_then_request, roleRequest.
  unfold_handlers. unfold log. cbn [channels trace].
  case_hierarchy env guildID; case_gate env guildID; case_transport env; intros H;
    try discriminate H; same_run.
Qed.

Lemma kick_run (env : Env) (w : World)
    (guildID memberID : string) (reason : option string) :
  member_hierarchy_passes env guildID memberID = true →
  kick env guildID memberID reason w =
  capability_then_request env guildID KICK_MEMBERS MISSING_KICK_MEMBERS
    (kickRequest guildID memberID reason)
    [CallHighestRole guildID (botID env); CallHighestRole guildID memberID] w.
Proof.
  unfold member_hierarchy_passes, capability_then_request, kickRequest.
  unfold_handlers. unfold log. cbn [channels trace].
  case_hierarchy env guildID; case_gate env guildID; case_transport env; intros H;
    try discriminate H; same_run.
Qed.

(** A position that is not higher does not always block the mutation: when
    the agent has no highest role the guard on its presence skips the
    comparison.  Here the agent has no role, the target member's highest
    role is at position 5, and both kick and addRole issue their request. *)
Lemma hierarchy_absent_role_counterexample :
  highestRole_of (Demo.env [] [KICK_MEMBERS; MANAGE_ROLES]) "g" "bot" = None ∧
  highestRole_of (Demo.env [] [KICK_MEMBERS; MANAGE_ROLES]) "g" "alice"
    = Some {| role_id := "mod"; position := 5 |} ∧
  kick (Demo.env [] [KICK_MEMBERS; MANAGE_ROLES]) "g" "alice" None Demo.w0
  = (inr tt,
     {| channels := ∅;
        trace := [CallHighestRole "g" "bot"; CallHighestRole "g" "alice";
                  CallBotHasPermission "g" [KICK_MEMBERS];
                  CallRequest {| method := DELETE; endpoint := GUILD_MEMBER "g" "alice";
                                 body := ReasonBody None |}] |}) ∧
  addRole (Demo.env [] [KICK_MEMBERS; MANAGE_ROLES]) "g" "alice" "admin" None Demo.w0
  = (inr tt,
     {| channels := ∅;
        trace := [CallHighestRole "g" "bot";
                  CallBotHasPermission "g" [MANAGE_ROLES];
                  CallRequest {| method := PUT;
                                 endpoint := GUILD_MEMBER_ROLE "g" "alice" "admin";
                                 body := ReasonBody None |}] |}).
Proof. repeat split. Qed.

(** C1, amended: when the agent has a highest role, addRole and removeRole
    throw BOTS_HIGHEST_ROLE_TOO_LOW and issue no request if the comparator
    does not rank that role above the target role, which with the strict
    comparator of the specification is the case whenever the agent's
    position is at most the target role's; kick throws
    BOTS_HIGHEST_ROLE_TOO_LOW and issues no request if the target member
    has a highest role too and the agent's position is at most the
    target's, equal positions included, whatever the capabilities are.
    When the agent has no highest role (or, for kick, the target member
    has none) no hierarchy comparison is made: the comparator is not
    called, and the call is its capability question followed by its
    request. *)
Theorem hierarchy_too_low (env base : Env) (bot : string)
    (cache : gmap string CachedGuilds.Guild) (w : World)
    (guildID memberID roleID : string) (reason : option string) (b : Role) :
  (highestRole_of env guildID (botID env) = Some b →
   higherRolePosition_of env guildID (role_id b) roleID = false →
   throws_offline (addRole env guildID memberID roleID reason) w
     BOTS_HIGHEST_ROLE_TOO_LOW ∧
   throws_offline (removeRole env guildID memberID roleID reason) w
     BOTS_HIGHEST_ROLE_TOO_LOW) ∧
  (∀ guild q,
     cache !! guildID = Some guild →
     CachedGuilds.highestRole_spec cache guildID bot = Some b →
     CachedGuilds.guild_roles guild !! roleID = Some q →
     position b <= q →
     throws_offline
       (addRole (CachedGuilds.env bot cache base) guildID memberID roleID reason) w
       BOTS_HIGHEST_ROLE_TOO_LOW ∧
     throws_offline
       (removeRole (CachedGuilds.env bot cache base) guildID memberID roleID reason) w
       BOTS_HIGHEST_ROLE_TOO_LOW) ∧
  (∀ t,
     highestRole_of env guildID (botID env) = Some b →
     highestRole_of env guildID memberID = Some t →
     position b <= position t →
     throws_offline (kick env guildID memberID reason) w BOTS_HIGHEST_ROLE_TOO_LOW) ∧
  (highestRole_of env guildID (botID env) = None →
   addRole env guildID memberID roleID reason w =
   capability_then_request env guildID MANAGE_ROLES MISSING_MANAGE_ROLES
     (roleRequest PUT guildID memberID roleID reason)
     [CallHighestRole guildID (botID env)] w ∧
   removeRole env guildID memberID roleID reason w =
   capability_then_request env guildID MANAGE_ROLES MISSING_MANAGE_ROLES
     (roleRequest DELETE guildID memberID roleID reason)
     [CallHighestRole guildID (botID env)] w) ∧
  (highestRole_of env guildID (botID env) = None ∨
   highestRole_of env guildID memberID = None →
   kick env guildID memberID reason w =
   capability_then_request env guildID KICK_MEMBERS MISSING_KICK_MEMBERS
     (kickRequest guildID memberID reason)
     [CallHighestRole guildID (botID env); CallHighestRole guildID memberID] w).
Proof.
  split; [| split; [| split; [| split]]].
  - intros Hb Hcmp. split;
      [eapply addRole_too_low | eapply removeRole_too_low]; eassumption.
  - intros guild q Hg Hb Hq Hle.
    assert (higherRolePosition_of (CachedGuilds.env bot cache base)
              guildID (role_id b) roleID = false) as Hcmp.
    { cbn. erewrite higherRolePosition_spec_strict;
        eauto using highestRole_spec_cached.
      apply Z.ltb_ge. exact Hle. }
    split; [eapply addRole_too_low | eapply removeRole_too_low]; eassumption.
  - intros t Hb Ht Hle. eapply kick_too_low; eassumption.
  - intros Hnone.
    rewrite addRole_run, removeRole_run
      by (unfold role_hierarchy_passes; rewrite Hnone; reflexivity).
    unfold role_checks. rewrite Hnone. split; reflexivity.
  - intros Hnone. apply kick_run. unfold member_hierarchy_passes.
    destruct Hnone as [-> | ->]; [reflexivity |].
    destruct (highestRole_of env guildID (botID env)); reflexivity.
Qed.

Lemma hierarchy_too_low_witness :
  throws_offline
    (addRole (Demo.env ["mod"] [KICK_MEMBERS; MANAGE_ROLES]) "g" "alice" "senior" None)
    Demo.w0 BOTS_HIGHEST_ROLE_TOO_LOW ∧
  throws_offline
    (removeRole (Demo.env ["mod"] [KICK_MEMBERS; MANAGE_ROLES]) "g" "alice" "admin" None)
    Demo.w0 BOTS_HIGHEST_ROLE_TOO_LOW ∧
  throws_offline
    (kick (Demo.env ["mod"] [KICK_MEMBERS; MANAGE_ROLES]) "g" "alice" None)
    Demo.w0 BOTS_HIGHEST_ROLE_TOO_LOW ∧
  removeRole (Demo.env [] [KICK_MEMBERS]) "g" "alice" "admin" None Demo.w0
  = (inl (Err MISSING_MANAGE_ROLES),
     {| channels := ∅;
        trace := [CallHighestRole "g" "bot"; CallBotHasPermission "g" [MANAGE_ROLES]] |}) ∧
  addRole (Demo.env [] [MANAGE_ROLES]) "g" "alice" "admin" None Demo.w0
  = (inr tt,
     {| channels := ∅;
        trace := [CallHighestRole "g" "bot"; CallBotHasPermission "g" [MANAGE_ROLES];
                  CallRequest (roleRequest PUT "g" "alice" "admin" None)] |}) ∧
  kick (Demo.env ["everyone"] [KICK_MEMBERS]) "g" "dave" None Demo.w0
  = (inr tt,
     {| channels := ∅;
        trace := [CallHighestRole "g" "bot"; CallHighestRole "g" "dave";
                  CallBotHasPermission "g" [KICK_MEMBERS];
                  CallRequest (kickRequest "g" "dave" None)] |}).
Proof.
  split; [| split; [| split; [| split; [| split]]]].
  - refine (proj1 (proj1 (proj2
      (hierarchy_too_low Demo.base Demo.base "bot"
         {[ "g" := Demo.guild ["mod"] [KICK_MEMBERS; MANAGE_ROLES] ]} Demo.w0
         "g" "alice" "senior" None {| role_id := "mod"; position := 5 |}))
      (Demo.guild ["mod"] [KICK_MEMBERS; MANAGE_ROLES]) 5 _ _ _ _));
      [reflexivity | reflexivity | reflexivity | cbn; lia].
  - refine (proj2 (proj1
      (hierarchy_too_low (Demo.env ["mod"] [KICK_MEMBERS; MANAGE_ROLES]) Demo.base
         "bot" ∅ Demo.w0 "g" "alice" "admin" None
         {| role_id := "mod"; position := 5 |}) _ _));
      reflexivity.
  - refine (proj1 (proj2 (proj2
      (hierarchy_too_low (Demo.env ["mod"] [KICK_MEMBERS; MANAGE_ROLES]) Demo.base
         "bot" ∅ Demo.w0 "g" "alice" "admin" None
         {| role_id := "mod"; position := 5 |})))
      {| role_id := "mod"; position := 5 |} _ _ _);
      [reflexivity | reflexivity | cbn; lia].
  - exact (proj2 (proj1 (proj2 (proj2 (proj2
      (hierarchy_too_low (Demo.env [] [KICK_MEMBERS]) Demo.base "bot" ∅ Demo.w0
         "g" "alice" "admin" None {| role_id := "mod"; position := 5 |}))))
      eq_refl)).
  - exact (proj1 (proj1 (proj2 (proj2 (proj2
      (hierarchy_too_low (Demo.env [] [MANAGE_ROLES]) Demo.base "bot" ∅ Demo.w0
         "g" "alice" "admin" None {| role_id := "mod"; position := 5 |}))))
      eq_refl)).
  - exact (proj2 (proj2 (proj2 (proj2
      (hierarchy_too_low (Demo.env ["everyone"] [KICK_MEMBERS]) Demo.base "bot" ∅
         Demo.w0 "g" "dave" "admin" None {| role_id := "mod"; position := 5 |}))))
      (or_intror eq_refl)).
Defined.

Lemma addRole_missing_capability (env : Env) (w : World)
    (guildID memberID roleID : string) (reason : option string) :
  (highestRole_of env guildID (botID env) = None ∨
   ∃ b, highestRole_of env guildID (botID env) = Some b ∧
        higherRolePosition_of env guildID (role_id b) roleID = true) →
  botHasPermission_of env guildID [MANAGE_ROLES] = false →
  throws_offline (addRole env guildID memberID roleID reason) w MISSING_MANAGE_ROLES.
Proof.
  intros [Hb | (b & Hb & Hcmp)] Hgate; unfold throws_offline; unfold_handlers;
    cbn [log]; rewrite Hb; cbn [log role_id]; rewrite ?Hcmp; cbn [negb log];
    rewrite Hgate; cbn [negb]; solve_offline.
Qed.

(** C9: an agent whose highest role outranks the target role, or that has
    no highest role, but that lacks the role-management capability gets
    MISSING_MANAGE_ROLES from addRole, not BOTS_HIGHEST_ROLE_TOO_LOW, and
    no request is issued; with the comparator of the specification this is
    the case whenever the target role's position is below the agent's, as
    with 3 against 10. *)
Theorem addRole_missing_manage_roles (env base : Env) (bot : string)
    (cache : gmap string CachedGuilds.Guild) (w : World)
    (guildID memberID roleID : string) (reason : option string) :
  ((highestRole_of env guildID (botID env) = None ∨
    ∃ b, highestRole_of env guildID (botID env) = Some b ∧
         higherRolePosition_of env guildID (role_id b) roleID = true) →
   botHasPermission_of env guildID [MANAGE_ROLES] = false →
   throws_offline (addRole env guildID memberID roleID reason) w MISSING_MANAGE_ROLES) ∧
  (∀ guild b q,
     cache !! guildID = Some guild →
     CachedGuilds.highestRole_spec cache guildID bot = Some b →
     CachedGuilds.guild_roles guild !! roleID = Some q →
     q < position b →
     MANAGE_ROLES ∉ CachedGuilds.guild_botPermissions guild →
     throws_offline
       (addRole (CachedGuilds.env bot cache base) guildID memberID roleID reason) w
       MISSING_MANAGE_ROLES).
Proof.
  split; [apply addRole_missing_capability |].
  intros guild b q Hg Hb Hq Hlt Hperm.
  apply addRole_missing_capability.
  - right. exists b. split; [exact Hb |]. cbn.
    erewrite higherRolePosition_spec_strict; eauto using highestRole_spec_cached.
    apply Z.ltb_lt. exact Hlt.
  - cbn. eapply botHasPermission_spec_missing; eassumption.
Qed.

Lemma addRole_missing_manage_roles_witness :
  throws_offline (addRole Demo.base "g" "alice" "helper" None) Demo.w0
    MISSING_MANAGE_ROLES ∧
  CachedGuilds.highestRole_spec {[ "g" := Demo.guild ["admin"] [KICK_MEMBERS] ]} "g" "bot"
    = Some {| role_id := "admin"; position := 10 |} ∧
  CachedGuilds.guild_roles (Demo.guild ["admin"] [KICK_MEMBERS]) !! "helper" = Some 3 ∧
  throws_offline (addRole (Demo.env ["admin"] [KICK_MEMBERS]) "g" "alice" "helper" None)
    Demo.w0 MISSING_MANAGE_ROLES.
Proof.
  split; [| split; [reflexivity | split; [reflexivity |]]].
  { refine (proj1
      (addRole_missing_manage_roles Demo.base Demo.base "bot" ∅ Demo.w0
         "g" "alice" "helper" None) _ _); [left |]; reflexivity. }
  refine (proj2
    (addRole_missing_manage_roles Demo.base Demo.base "bot"
       {[ "g" := Demo.guild ["admin"] [KICK_MEMBERS] ]} Demo.w0
       "g" "alice" "helper" None)
    (Demo.guild ["admin"] [KICK_MEMBERS])
    {| role_id := "admin"; position := 10 |} 3 _ _ _ _ _).
  - reflexivity.
  - reflexivity.
  - reflexivity.
  - cbn. lia.
  - cbn. intros Hin. apply list_elem_of_singleton in Hin. discriminate.
Defined.

(** ** sendDirectMessage *)

Lemma creations_app (t u : list Call) : creations (t ++ u) = (creations t + creations u)%nat.
Proof. unfold creations. rewrite List.filter_app. apply length_app. Qed.

(** A cache hit: the cached channel is used, nothing is created and the
    cache is not written. *)
Lemma sendDirectMessage_hit (env : Env) (w : World) (memberID content : string)
    (c : Channel) :
  channels w !! memberID = Some c →
  sendDirectMessage env memberID content w =
  (inr tt, {| channels := channels w;
              trace := trace w ++ [CallCacheGet memberID;
                                   CallSendMessage (channel_id c) content] |}).
Proof.
  intros Hc. unfold_handlers. unfold log. cbn [channels trace]. rewrite Hc.
  cbn [channels trace]. rewrite <- app_assoc. reflexivity.
Qed.

(** A cache miss that the remote API answers. *)
Lemma sendDirectMessage_miss (env : Env) (w : World) (memberID content : string)
    (data : DMChannelCreatePayload) :
  channels w !! memberID = None →
  createDM_response env memberID = Some data →
  sendDirectMessage env memberID content w =
  (inr tt,
   {| channels :=
        <[memberID := createChannel_of env data]>
          (delete (payload_id data) (channelCreateEvent env data (channels w)));
      trace :=
        trace w ++ [CallCacheGet memberID;
                    CallRequest (createDM_request memberID);
                    CallCacheDelete (payload_id data);
                    CallCreateChannel data;
                    CallCacheSet memberID (createChannel_of env data);
                    CallSendMessage (channel_id (createChannel_of env data)) content] |}).
Proof.
  intros Hc Hdata. unfold_handlers. unfold log, with_channels.
  cbn [channels trace]. rewrite Hc. cbn [channels trace]. rewrite Hdata.
  cbn [channels trace]. rewrite <- !app_assoc. reflexivity.
Qed.

(** A cache miss that the remote API rejects: the rejection passes through
    and the cache is as it was. *)
Lemma sendDirectMessage_rejected (env : Env) (w : World) (memberID content : string) :
  channels w !! memberID = None →
  createDM_response env memberID = None →
  sendDirectMessage env memberID content w =
  (inl (Rejected (createDM_request memberID)),
   {| channels := channels w;
      trace := trace w ++ [CallCacheGet memberID;
                           CallRequest (createDM_request memberID)] |}).
Proof.
  intros Hc Hdata. unfold_handlers. unfold log, with_channels.
  cbn [channels trace]. rewrite Hc. cbn [channels trace]. rewrite Hdata.
  cbn [channels trace]. rewrite <- !app_assoc. reflexivity.
Qed.

(** C4: after a resolution that starts from a cache miss and that the
    remote API answers, the user identifier leads to the channel built
    from the answer; no entry is left under the channel's own identifier
    (unless that is the user identifier itself); and if the gateway keyed
    the entries of that channel by the channel identifier, the user
    identifier is the one key under which a channel of that identifier is
    cached. *)
Theorem sendDirectMessage_reconciles (env : Env) (w : World)
    (memberID content : string) (data : DMChannelCreatePayload) :
  channels w !! memberID = None →
  createDM_response env memberID = Some data →
  (sendDirectMessage env memberID content w).1 = inr tt ∧
  channels (sendDirectMessage env memberID content w).2 !! memberID
    = Some (createChannel_of env data) ∧
  (payload_id data ≠ memberID →
   channels (sendDirectMessage env memberID content w).2 !! payload_id data = None) ∧
  ((∀ k c, channelCreateEvent env data (channels w) !! k = Some c →
           channel_id c = payload_id data → k = payload_id data) →
   ∀ k c, channels (sendDirectMessage env memberID content w).2 !! k = Some c →
          channel_id c = payload_id data → k = memberID).
Proof.
  intros Hmiss Hdata. rewrite (sendDirectMessage_miss _ _ _ _ _ Hmiss Hdata).
  cbn [fst snd channels]. repeat split.
  - apply lookup_insert_eq.
  - intros Hne. rewrite lookup_insert_ne by congruence. apply lookup_delete_eq.
  - intros Hkeyed k c Hk Hid.
    destruct (decide (k = memberID)) as [-> | Hne]; [reflexivity |].
    rewrite lookup_insert_ne in Hk by congruence.
    apply lookup_delete_Some in Hk as [Hne' Hk].
    specialize (Hkeyed k c Hk Hid). congruence.
Qed.

Lemma sendDirectMessage_reconciles_witness :
  channels (sendDirectMessage Demo.base "alice" "hello" Demo.w0).2 !! "alice"
    = Some {| channel_id := "dm-alice"; channel_body := "{}" |} ∧
  channels (sendDirectMessage Demo.base "alice" "hello" Demo.w0).2 !! "dm-alice" = None ∧
  (∀ k c, channels (sendDirectMessage Demo.base "alice" "hello" Demo.w0).2 !! k = Some c →
          channel_id c = "dm-alice" → k = "alice").
Proof.
  destruct (sendDirectMessage_reconciles Demo.base Demo.w0 "alice" "hello"
              {| payload_id := "dm-alice"; payload_body := "{}" |}
              eq_refl eq_refl) as (_ & Huser & Hchannel & Hone).
  split; [exact Huser | split].
  - apply Hchannel. discriminate.
  - apply Hone. intros k c Hk _.
    destruct (decide (k = "dm-alice")) as [-> | Hne]; [reflexivity |].
    cbn in Hk. rewrite lookup_insert_ne in Hk by congruence.
    rewrite lookup_empty in Hk. discriminate.
Defined.

(** C5: a call that finds the user identifier in the cache issues no
    creation request, leaves the cache as it is and sends through the
    cached channel; and when a first resolution has completed, a second one
    for the same user completes from the cache without a creation request,
    so that the two together issue at most one. *)
Theorem sendDirectMessage_idempotent (env : Env) (w : World)
    (memberID content content' : string) :
  (∀ c, channels w !! memberID = Some c →
        sendDirectMessage env memberID content w =
        (inr tt, {| channels := channels w;
                    trace := trace w ++ [CallCacheGet memberID;
                                         CallSendMessage (channel_id c) content] |})) ∧
  ((sendDirectMessage env memberID content w).1 = inr tt →
   let w1 := (sendDirectMessage env memberID content w).2 in
   let w2 := (sendDirectMessage env memberID content' w1).2 in
   (sendDirectMessage env memberID content' w1).1 = inr tt ∧
   creations (trace w2) = creations (trace w1) ∧
   (creations (trace w2) ≤ creations (trace w) + 1)%nat ∧
   channels w2 = channels w1).
Proof.
  split; [intros c; apply sendDirectMessage_hit |].
  destruct (channels w !! memberID) as [c|] eqn:Hw.
  - intros _. rewrite (sendDirectMessage_hit _ _ _ content _ Hw). cbn [fst snd].
    erewrite sendDirectMessage_hit by (cbn [channels]; exact Hw).
    cbn [fst snd channels trace]. rewrite !creations_app. cbn. repeat split; lia.
  - destruct (createDM_response env memberID) as [data|] eqn:Hdata.
    + intros _. rewrite (sendDirectMessage_miss _ _ _ content _ Hw Hdata).
      cbn [fst snd].
      erewrite sendDirectMessage_hit by (cbn [channels]; apply lookup_insert_eq).
      cbn [fst snd channels trace]. rewrite !creations_app. cbn. repeat split; lia.
    + rewrite (sendDirectMessage_rejected _ _ _ content Hw Hdata). discriminate.
Qed.

Lemma sendDirectMessage_idempotent_witness :
  sendDirectMessage Demo.base "alice" "hello" Demo.cached
  = (inr tt,
     {| channels := channels Demo.cached;
        trace := [CallCacheGet "alice"; CallSendMessage "dm-alice" "hello"] |}) ∧
  creations (trace (sendDirectMessage Demo.base "alice" "again"
                      (sendDirectMessage Demo.base "alice" "hello" Demo.w0).2).2) = 1%nat.
Proof.
  split.
  - exact (proj1 (sendDirectMessage_idempotent Demo.base Demo.cached
                    "alice" "hello" "again")
             {| channel_id := "dm-alice"; channel_body := "{}" |} eq_refl).
  - destruct (sendDirectMessage_idempotent Demo.base Demo.w0 "alice" "hello" "again")
      as [_ Htwice].
    destruct (Htwice eq_refl) as (_ & Hsame & _ & _).
    rewrite Hsame. reflexivity.
Defined.

(** Without an answer to the first creation request nothing is cached, and
    the second call asks again. *)
Example sendDirectMessage_rejected_twice :
  creations (trace (sendDirectMessage Demo.offline "alice" "again"
                      (sendDirectMessage Demo.offline "alice" "hello" Demo.w0).2).2) = 2%nat.
Proof. reflexivity. Qed.

(** ** More on addRole, removeRole and kick *)

(** X1: once its hierarchy test passes (no highest role of the agent, or
    one the comparator ranks above the role) addRole asks about
    MANAGE_ROLES and, if it is held, issues the one PUT on the member's
    role with the reason as given, passing a rejection of the transport
    through; it returns exactly when the hierarchy test passes,
    MANAGE_ROLES is held and the transport accepts the PUT. *)
Theorem addRole_returns_iff (env : Env) (w : World)
    (guildID memberID roleID : string) (reason : option string) :
  (role_hierarchy_passes env guildID roleID = true →
   addRole env guildID memberID roleID reason w =
   capability_then_request env guildID MANAGE_ROLES MISSING_MANAGE_ROLES
     (roleRequest PUT guildID memberID roleID reason)
     (role_checks env guildID roleID) w) ∧
  ((addRole env guildID memberID roleID reason w).1 = inr tt ↔
   role_hierarchy_passes env guildID roleID
     && botHasPermission_of env guildID [MANAGE_ROLES]
     && request_accepted env (roleRequest PUT guildID memberID roleID reason) = true).
Proof.
  split; [apply addRole_run |].
  unfold role_hierarchy_passes, roleRequest. unfold_handlers.
  case_hierarchy env guildID; case_gate env guildID; case_transport env;
    cbn; split; intros H; first [reflexivity | discriminate H].
Qed.

Lemma addRole_returns_iff_witness :
  addRole (Demo.env ["admin"] [MANAGE_ROLES]) "g" "alice" "helper" (Some "promoted") Demo.w0
  = (inr tt,
     {| channels := ∅;
        trace := [CallHighestRole "g" "bot";
                  CallHigherRolePosition "g" "admin" "helper";
                  CallBotHasPermission "g" [MANAGE_ROLES];
                  CallRequest {| method := PUT;
                                 endpoint := GUILD_MEMBER_ROLE "g" "alice" "helper";
                                 body := ReasonBody (Some "promoted") |}] |}).
Proof.
  refine (proj1 (addRole_returns_iff (Demo.env ["admin"] [MANAGE_ROLES]) Demo.w0
                   "g" "alice" "helper" (Some "promoted")) _).
  reflexivity.
Defined.

(** A PUT that the transport rejects: addRole throws the rejection, after
    the one request. *)
Example addRole_rejected :
  addRole (CachedGuilds.env "bot" {[ "g" := Demo.guild ["admin"] [MANAGE_ROLES] ]}
             Demo.offline)
    "g" "alice" "helper" None Demo.w0
  = (inl (Rejected (roleRequest PUT "g" "alice" "helper" None)),
     {| channels := ∅;
        trace := [CallHighestRole "g" "bot";
                  CallHigherRolePosition "g" "admin" "helper";
                  CallBotHasPermission "g" [MANAGE_ROLES];
                  CallRequest (roleRequest PUT "g" "alice" "helper" None)] |}).
Proof. reflexivity. Qed.

(** X2: once its hierarchy test passes removeRole asks about MANAGE_ROLES
    and, if it is held, issues the one DELETE on the member's role with
    the reason as given, passing a rejection of the transport through; it
    returns exactly when the hierarchy test passes, MANAGE_ROLES is held
    and the transport accepts the DELETE. *)
Theorem removeRole_returns_iff (env : Env) (w : World)
    (guildID memberID roleID : string) (reason : option string) :
  (role_hierarchy_passes env guildID roleID = true →
   removeRole env guildID memberID roleID reason w =
   capability_then_request env guildID MANAGE_ROLES MISSING_MANAGE_ROLES
     (roleRequest DELETE guildID memberID roleID reason)
     (role_checks env guildID roleID) w) ∧
  ((removeRole env guildID memberID roleID reason w).1 = inr tt ↔
   role_hierarchy_passes env guildID roleID
     && botHasPermission_of env guildID [MANAGE_ROLES]
     && request_accepted env (roleRequest DELETE guildID memberID roleID reason) = true).
Proof.
  split; [apply removeRole_run |].
  unfold role_hierarchy_passes, roleRequest. unfold_handlers.
  case_hierarchy env guildID; case_gate env guildID; case_transport env;
    cbn; split; intros H; first [reflexivity | discriminate H].
Qed.

Lemma removeRole_returns_iff_witness :
  removeRole (Demo.env [] [MANAGE_ROLES]) "g" "alice" "mod" None Demo.w0
  = (inr tt,
     {| channels := ∅;
        trace := [CallHighestRole "g" "bot";
                  CallBotHasPermission "g" [MANAGE_ROLES];
                  CallRequest {| method := DELETE;
                                 endpoint := GUILD_MEMBER_ROLE "g" "alice" "mod";
                                 body := ReasonBody None |}] |}).
Proof.
  refine (proj1 (removeRole_returns_iff (Demo.env [] [MANAGE_ROLES]) Demo.w0
                   "g" "alice" "mod" None) _).
  reflexivity.
Defined.

(** X3: once its hierarchy test passes (one of the two highest roles
    missing, or the agent's position above the member's) kick, having
    looked up both highest roles, asks about KICK_MEMBERS and, if it is
    held, issues the one DELETE on the member with the reason as given,
    passing a rejection of the transport through; it returns exactly when
    the hierarchy test passes, KICK_MEMBERS is held and the transport
    accepts the DELETE. *)
Theorem kick_returns_iff (env : Env) (w : World)
    (guildID memberID : string) (reason : option string) :
  (member_hierarchy_passes env guildID memberID = true →
   kick env guildID memberID reason w =
   capability_then_request env guildID KICK_MEMBERS MISSING_KICK_MEMBERS
     (kickRequest guildID memberID reason)
     [CallHighestRole guildID (botID env); CallHighestRole guildID memberID] w) ∧
  ((kick env guildID memberID reason w).1 = inr tt ↔
   member_hierarchy_passes env guildID memberID
     && botHasPermission_of env guildID [KICK_MEMBERS]
     && request_accepted env (kickRequest guildID memberID reason) = true).
Proof.
  split; [apply kick_run |].
  unfold member_hierarchy_passes, kickRequest. unfold_handlers.
  case_hierarchy env guildID; case_gate env guildID; case_transport env;
    cbn; split; intros H; first [reflexivity | discriminate H].
Qed.

Lemma kick_returns_iff_witness :
  kick (Demo.env ["admin"] [KICK_MEMBERS]) "g" "alice" (Some "spam") Demo.w0
  = (inr tt,
     {| channels := ∅;
        trace := [CallHighestRole "g" "bot"; CallHighestRole "g" "alice";
                  CallBotHasPermission "g" [KICK_MEMBERS];
                  CallRequest {| method := DELETE; endpoint := GUILD_MEMBER "g" "alice";
                                 body := ReasonBody (Some "spam") |}] |}).
Proof.
  refine (proj1 (kick_returns_iff (Demo.env ["admin"] [KICK_MEMBERS]) Demo.w0
                   "g" "alice" (Some "spam")) _).
  reflexivity.
Defined.

(** X4: when the hierarchy test of kick passes but KICK_MEMBERS is not
    held, kick throws MISSING_KICK_MEMBERS and nothing is put on the
    network. *)
Theorem kick_missing_kick_members (env : Env) (w : World)
    (guildID memberID : string) (reason : option string) :
  member_hierarchy_passes env guildID memberID = true →
  botHasPermission_of env guildID [KICK_MEMBERS] = false →
  throws_offline (kick env guildID memberID reason) w MISSING_KICK_MEMBERS.
Proof.
  unfold member_hierarchy_passes, throws_offline. unfold_handlers.
  case_hierarchy env guildID; intros Hh Hgate; try discriminate Hh;
    rewrite Hgate; cbn [negb]; solve_offline.
Qed.

Lemma kick_missing_kick_members_witness :
  throws_offline (kick (Demo.env ["admin"] [MANAGE_ROLES]) "g" "alice" None)
    Demo.w0 MISSING_KICK_MEMBERS.
Proof.
  apply kick_missing_kick_members; reflexivity.
Defined.

(** X5: when the hierarchy test of removeRole passes but MANAGE_ROLES is
    not held, removeRole throws MISSING_MANAGE_ROLES and nothing is put on
    the network. *)
Theorem removeRole_missing_manage_roles (env : Env) (w : World)
    (guildID memberID roleID : string) (reason : option string) :
  role_hierarchy_passes env guildID roleID = true →
  botHasPermission_of env guildID [MANAGE_ROLES] = false →
  throws_offline (removeRole env guildID memberID roleID reason) w MISSING_MANAGE_ROLES.
Proof.
  unfold role_hierarchy_passes, throws_offline. unfold_handlers.
  case_hierarchy env guildID; intros Hh Hgate; try discriminate Hh;
    rewrite Hgate; cbn [negb]; solve_offline.
Qed.

Lemma removeRole_missing_manage_roles_witness :
  throws_offline (removeRole (Demo.env ["admin"] [KICK_MEMBERS]) "g" "alice" "mod" None)
    Demo.w0 MISSING_MANAGE_ROLES.
Proof.
  apply removeRole_missing_manage_roles; reflexivity.
Defined.

Lemma network_log_online (c : Call) (w : World) :
  is_network c = true → network (trace (log c w)) = network (trace w) ++ [c].
Proof.
  intros Hc. cbn. rewrite network_app. cbn. rewrite Hc. reflexivity.
Qed.

Ltac solve_one_shot :=
  split; [reflexivity |]; cbn [fst snd];
  first
    [ exists []; split;
      [rewrite ?network_log_offline by reflexivity; rewrite app_nil_r; reflexivity
      | reflexivity]
    | eexists; split;
      [rewrite network_log_online by reflexivity;
       rewrite ?network_log_offline by reflexivity; reflexivity
      | reflexivity] ].

(** X6: the four mutations never write the channel cache and put at most
    one call on the network: exactly one if the call returns, none if it
    throws an error of its own, and the rejected request, which is the one
    it issued, if it throws a rejection of the transport. *)
Theorem mutations_one_shot (env : Env) (w : World)
    (guildID memberID roleID : string) (reason : option string)
    (options : EditMemberOptions) :
  one_shot (addRole env guildID memberID roleID reason) w ∧
  one_shot (removeRole env guildID memberID roleID reason) w ∧
  one_shot (kick env guildID memberID reason) w ∧
  one_shot (editMember env guildID memberID options) w.
Proof.
  unfold one_shot. split; [| split; [| split]].
  - unfold_handlers.
    case_hierarchy env guildID; case_gate env guildID; case_transport env;
      solve_one_shot.
  - unfold_handlers.
    case_hierarchy env guildID; case_gate env guildID; case_transport env;
      solve_one_shot.
  - unfold_handlers.
    case_hierarchy env guildID; case_gate env guildID; case_transport env;
      solve_one_shot.
  - unfold_handlers. case_options options; case_gate env guildID; solve_one_shot.
Qed.

(** ** More on editMember *)

(** X7: editMember returns exactly when each of its four pre-checks
    passes; it has then asked one capability question per field that is
    set, in the order nick, roles, mute, deaf, and issued the one PATCH on
    the member with the options object as given. *)
Theorem editMember_returns_iff (env : Env) (w : World)
    (guildID memberID : string) (options : EditMemberOptions) :
  ((editMember env guildID memberID options w).1 = inr tt ↔
   nick_passes env guildID options && roles_passes env guildID options &&
     mute_passes env guildID options && deaf_passes env guildID options = true) ∧
  (nick_passes env guildID options && roles_passes env guildID options &&
     mute_passes env guildID options && deaf_passes env guildID options = true →
   editMember env guildID memberID options w =
   (inr tt, {| channels := channels w;
               trace := trace w ++ editMember_checks guildID options
                          ++ [patchRequest guildID memberID options] |})).
Proof.
  assert (nick_passes env guildID options && roles_passes env guildID options &&
            mute_passes env guildID options && deaf_passes env guildID options = true →
          editMember env guildID memberID options w =
          (inr tt, {| channels := channels w;
                      trace := trace w ++ editMember_checks guildID options
                                 ++ [patchRequest guildID memberID options] |}))
    as Hrun.
  { intros H. repeat (apply andb_prop in H as [H ?]).
    apply editMember_dispatches; assumption. }
  split; [| exact Hrun]. split.
  - destruct (editMember env guildID memberID options w) as [[t|[]] w'] eqn:Hw;
      cbn; intros H; [discriminate H |].
    destruct (editMember_returns_inv _ _ _ _ _ _ Hw) as (-> & -> & -> & ->).
    reflexivity.
  - intros H. rewrite (Hrun H). reflexivity.
Qed.

Lemma editMember_returns_iff_witness :
  editMember (Demo.env [] [MANAGE_NICKNAMES; DEAFEN_MEMBERS]) "g" "alice"
    {| nick := Some "Al"; roles := None; mute := Some false; deaf := Some true;
       channel_id_opt := Some None |} Demo.w0
  = (inr tt,
     {| channels := ∅;
        trace := [CallBotHasPermission "g" [MANAGE_NICKNAMES];
                  CallBotHasPermission "g" [DEAFEN_MEMBERS];
                  patchRequest "g" "alice"
                    {| nick := Some "Al"; roles := None; mute := Some false;
                       deaf := Some true; channel_id_opt := Some None |}] |}).
Proof.
  refine (proj2 (editMember_returns_iff (Demo.env [] [MANAGE_NICKNAMES; DEAFEN_MEMBERS])
                   Demo.w0 "g" "alice"
                   {| nick := Some "Al"; roles := None; mute := Some false;
                      deaf := Some true; channel_id_opt := Some None |}) _).
  reflexivity.
Defined.

(** X8: the voice channel of the options is never checked: with any other
    [channel_id] the call has the same outcome and asks the same
    capability questions, and a call that returns has sent the
    [channel_id] it was given. *)
Theorem editMember_channel_id_unchecked (env : Env) (w : World)
    (guildID memberID : string) (options : EditMemberOptions)
    (voice : option (option string)) :
  (editMember env guildID memberID (with_channel_id voice options) w).1
    = (editMember env guildID memberID options w).1 ∧
  permissionChecks (trace (editMember env guildID memberID (with_channel_id voice options) w).2)
    = permissionChecks (trace (editMember env guildID memberID options w).2) ∧
  ((editMember env guildID memberID (with_channel_id voice options) w).1 = inr tt →
   last (trace (editMember env guildID memberID (with_channel_id voice options) w).2)
     = Some (patchRequest guildID memberID (with_channel_id voice options))).
Proof.
  unfold with_channel_id, permissionChecks, patchRequest. unfold_handlers.
  case_options options; case_gate env guildID;
    (split; [reflexivity | split;
      [ cbn [fst snd log trace]; rewrite ?omap_app; reflexivity
      | cbn [fst snd log trace]; intros H;
        first [discriminate H | apply last_snoc] ]]).
Qed.

(** X9: a nickname that is not empty and not longer than 32, without the
    nickname capability, makes editMember throw MISSING_MANAGE_NICKNAMES
    after that one capability question: nothing else is asked and nothing
    is sent, whatever the other fields are. *)
Theorem editMember_missing_manage_nicknames (env : Env) (w : World)
    (guildID memberID : string) (options : EditMemberOptions) (n : string) :
  nick options = Some n →
  n ≠ "" →
  (String.length n ≤ 32)%nat →
  botHasPermission_of env guildID [MANAGE_NICKNAMES] = false →
  editMember env guildID memberID options w =
  (inl (Err MISSING_MANAGE_NICKNAMES),
   {| channels := channels w;
      trace := trace w ++ [CallBotHasPermission guildID [MANAGE_NICKNAMES]] |}).
Proof.
  intros Hn Hne Hlen Hgate. unfold_handlers. rewrite Hn.
  cbn [truthy_string]. apply String.eqb_neq in Hne. rewrite Hne. cbn [negb].
  assert ((32 <? String.length n)%nat = false) as -> by (apply Nat.ltb_ge; exact Hlen).
  rewrite Hgate. reflexivity.
Qed.

Lemma editMember_missing_manage_nicknames_witness :
  editMember (Demo.env ["admin"] [MANAGE_ROLES; MUTE_MEMBERS]) "g" "alice"
    {| nick := Some "Al"; roles := Some ["mod"]; mute := Some true; deaf := None;
       channel_id_opt := None |} Demo.w0
  = (inl (Err MISSING_MANAGE_NICKNAMES),
     {| channels := ∅; trace := [CallBotHasPermission "g" [MANAGE_NICKNAMES]] |}).
Proof.
  refine (editMember_missing_manage_nicknames
            (Demo.env ["admin"] [MANAGE_ROLES; MUTE_MEMBERS]) Demo.w0 "g" "alice"
            {| nick := Some "Al"; roles := Some ["mod"]; mute := Some true; deaf := None;
               channel_id_opt := None |} "Al" eq_refl _ _ eq_refl).
  - discriminate.
  - vm_compute. lia.
Defined.

(** X10: whatever the outcome, the calls of editMember are an initial
    segment of: one capability question per field that is set, in the
    order nick, roles, mute, deaf, then the PATCH.  Checks are never
    reordered or repeated, and nothing follows the request. *)
Theorem editMember_calls_prefix (env : Env) (w : World)
    (guildID memberID : string) (options : EditMemberOptions) :
  ∃ cs, trace (editMember env guildID memberID options w).2 = trace w ++ cs ∧
        cs `prefix_of`
          editMember_checks guildID options ++ [patchRequest guildID memberID options].
Proof.
  unfold editMember_checks, patchRequest. unfold_handlers.
  case_options options; case_gate env guildID; trace_suffix;
    cbn [app truthy_string truthy_bool truthy_object nick roles mute deaf negb];
    rewrite ?Heqb; cbn [negb app];
    repeat (apply prefix_cons); first [apply prefix_nil | reflexivity].
Qed.

(** ** More on sendDirectMessage *)

(** X11: a cache miss that the remote API answers costs two calls over the
    network, in this order: the creation request for the user, then the
    message, sent to the identifier of the channel built from the
    answer. *)
Theorem sendDirectMessage_two_calls (env : Env) (w : World)
    (memberID content : string) (data : DMChannelCreatePayload) :
  channels w !! memberID = None →
  createDM_response env memberID = Some data →
  network (trace (sendDirectMessage env memberID content w).2) =
  network (trace w) ++
    [CallRequest (createDM_request memberID);
     CallSendMessage (channel_id (createChannel_of env data)) content].
Proof.
  intros Hmiss Hdata. rewrite (sendDirectMessage_miss _ _ _ _ _ Hmiss Hdata).
  cbn [snd trace]. rewrite network_app. reflexivity.
Qed.

Lemma sendDirectMessage_two_calls_witness :
  network (trace (sendDirectMessage Demo.base "alice" "hello" Demo.w0).2) =
  [CallRequest (createDM_request "alice"); CallSendMessage "dm-alice" "hello"].
Proof.
  exact (sendDirectMessage_two_calls Demo.base Demo.w0 "alice" "hello"
           {| payload_id := "dm-alice"; payload_body := "{}" |} eq_refl eq_refl).
Defined.

(** X12: when the remote API rejects the creation request the rejection
    is what sendDirectMessage throws; the cache is as it was, the creation
    request is the only call on the network and no message is sent. *)
Theorem sendDirectMessage_rejection (env : Env) (w : World) (memberID content : string) :
  channels w !! memberID = None →
  createDM_response env memberID = None →
  (sendDirectMessage env memberID content w).1
    = inl (Rejected (createDM_request memberID)) ∧
  channels (sendDirectMessage env memberID content w).2 = channels w ∧
  network (trace (sendDirectMessage env memberID content w).2)
    = network (trace w) ++ [CallRequest (createDM_request memberID)].
Proof.
  intros Hmiss Hdata. rewrite (sendDirectMessage_rejected _ _ _ _ Hmiss Hdata).
  cbn [fst snd channels trace]. rewrite network_app. repeat split.
Qed.

Lemma sendDirectMessage_rejection_witness :
  (sendDirectMessage Demo.offline "alice" "hello" Samples.cached_bob).1
    = inl (Rejected (createDM_request "alice")) ∧
  channels (sendDirectMessage Demo.offline "alice" "hello" Samples.cached_bob).2
    = channels Samples.cached_bob.
Proof.
  destruct (sendDirectMessage_rejection Demo.offline Samples.cached_bob "alice" "hello"
              eq_refl eq_refl) as (Hthrown & Hcache & _).
  split; assumption.
Defined.

(** X13: a resolution from a cache miss writes two keys only: every entry
    under a key other than the user identifier and the identifier of the
    new channel is as the gateway left it, and the keys of the cache are
    those of the gateway's, less the channel identifier, plus the user
    identifier. *)
Theorem sendDirectMessage_frame (env : Env) (w : World)
    (memberID content : string) (data : DMChannelCreatePayload) :
  channels w !! memberID = None →
  createDM_response env memberID = Some data →
  (∀ k, k ≠ memberID → k ≠ payload_id data →
        channels (sendDirectMessage env memberID content w).2 !! k
          = channelCreateEvent env data (channels w) !! k) ∧
  dom (channels (sendDirectMessage env memberID content w).2)
    = {[memberID]} ∪ (dom (channelCreateEvent env data (channels w))
                        ∖ {[payload_id data]}).
Proof.
  intros Hmiss Hdata. rewrite (sendDirectMessage_miss _ _ _ _ _ Hmiss Hdata).
  cbn [snd channels]. split.
  - intros k Hu Hc. rewrite lookup_insert_ne by congruence.
    apply lookup_delete_ne. congruence.
  - rewrite dom_insert_L, dom_delete_L. reflexivity.
Qed.

Lemma sendDirectMessage_frame_witness :
  channels (sendDirectMessage Demo.base "alice" "hello" Samples.cached_bob).2 !! "bob"
    = Some {| channel_id := "dm-bob"; channel_body := "{}" |}.
Proof.
  destruct (sendDirectMessage_frame Demo.base Samples.cached_bob "alice" "hello"
              {| payload_id := "dm-alice"; payload_body := "{}" |} eq_refl eq_refl)
    as [Hother _].
  rewrite Hother by discriminate. reflexivity.
Defined.

(** X14: whenever sendDirectMessage returns, from a hit or from a miss,
    the user identifier is cached and the last call is the message, sent
    to the identifier of the channel cached under it. *)
Theorem sendDirectMessage_sends_to_cached (env : Env) (w : World)
    (memberID content : string) :
  (sendDirectMessage env memberID content w).1 = inr tt →
  ∃ c, channels (sendDirectMessage env memberID content w).2 !! memberID = Some c ∧
       last (trace (sendDirectMessage env memberID content w).2)
         = Some (CallSendMessage (channel_id c) content).
Proof.
  destruct (channels w !! memberID) as [c|] eqn:Hw.
  - intros _. rewrite (sendDirectMessage_hit _ _ _ _ _ Hw). cbn [snd channels trace].
    exists c. split; [exact Hw |].
    rewrite last_app. reflexivity.
  - destruct (createDM_response env memberID) as [data|] eqn:Hdata.
    + intros _. rewrite (sendDirectMessage_miss _ _ _ _ _ Hw Hdata).
      cbn [snd channels trace]. exists (createChannel_of env data).
      split; [apply lookup_insert_eq |].
      rewrite last_app. reflexivity.
    + rewrite (sendDirectMessage_rejected _ _ _ _ Hw Hdata). discriminate.
Qed.

Lemma sendDirectMessage_sends_to_cached_witness :
  ∃ c, channels (sendDirectMessage Demo.base "alice" "hello" Samples.cached_bob).2 !! "alice"
         = Some c ∧
       last (trace (sendDirectMessage Demo.base "alice" "hello" Samples.cached_bob).2)
         = Some (CallSendMessage (channel_id c) "hello").
Proof.
  exact (sendDirectMessage_sends_to_cached Demo.base Samples.cached_bob "alice" "hello"
           eq_refl).
Defined.

(** X15: sendDirectMessage asks no capability question and consults no
    hierarchy helper, whatever its outcome. *)
Theorem sendDirectMessage_unchecked (env : Env) (w : World) (memberID content : string) :
  ∃ cs, trace (sendDirectMessage env memberID content w).2 = trace w ++ cs ∧
        permissionChecks cs = [] ∧
        List.filter is_hierarchy cs = [].
Proof.
  destruct (channels w !! memberID) as [c|] eqn:Hw.
  - rewrite (sendDirectMessage_hit _ _ _ _ _ Hw). eexists. split; [reflexivity |].
    split; reflexivity.
  - destruct (createDM_response env memberID) as [data|] eqn:Hdata.
    + rewrite (sendDirectMessage_miss _ _ _ _ _ Hw Hdata).
      eexists. split; [reflexivity |]. split; reflexivity.
    + rewrite (sendDirectMessage_rejected _ _ _ _ Hw Hdata).
      eexists. split; [reflexivity |]. split; reflexivity.
Qed.

(** ** Avatar URLs *)

Example Number_decimal_0007 : Number_decimal "0007" = Some 7.
Proof. reflexivity. Qed.

Example Number_decimal_letters : Number_decimal "12ab" = None.
Proof. reflexivity. Qed.

Lemma avatar_hash_None (a : option (option string)) :
  a = None ∨ a = Some None ∨ a = Some (Some "") → avatar_hash a = None.
Proof. intros [-> | [-> | ->]]; reflexivity. Qed.

Lemma avatar_hash_Some (a : option (option string)) (h : string) :
  a = Some (Some h) → h ≠ "" → avatar_hash a = Some h.
Proof.
  intros -> Hne. cbn. apply String.eqb_neq in Hne. rewrite Hne. reflexivity.
Qed.

Lemma decimal_app (acc : Z) (p q : string) :
  decimal acc (p +:+ q) =
  match decimal acc p with
  | Some m => decimal m q
  | None => None
  end.
Proof.
  revert acc. induction p as [|c p IH]; intros acc.
  - reflexivity.
  - change (String c p +:+ q) with (String c (p +:+ q)). cbn [decimal].
    destruct (digit_of c) as [d|]; [apply IH | reflexivity].
Qed.

(** The value of a digit string is its last digit modulo 5. *)
Lemma Number_decimal_last_digit (p : string) (c : Ascii.ascii) (n d : Z) :
  Number_decimal (p +:+ String c "") = Some n →
  digit_of c = Some d →
  (n mod 5 = d mod 5)%Z.
Proof.
  unfold Number_decimal.
  destruct (String.length (p +:+ String c "") <=? 15)%nat; [| discriminate].
  rewrite decimal_app. destruct (decimal 0 p) as [m|]; [| discriminate].
  cbn. intros Hn Hd. rewrite Hd in Hn. injection Hn as <-.
  replace (10 * m + d)%Z with (d + (2 * m) * 5)%Z by lia.
  apply Z_mod_plus_full.
Qed.

(** X16: with an avatar hash that is a non-empty string the avatar is the
    user's own: rawAvatarURL formats the USER_AVATAR endpoint of the user
    and the hash, at size 128 when no size is given, and never looks at
    the discriminator; avatarURL does so for the user of the member. *)
Theorem avatarURL_custom (USER_AVATAR : string → string → string)
    (USER_DEFAULT_AVATAR : Z → string)
    (formatImageURL : string → Z → option string → string)
    (member : Member) (userID discriminator h : string)
    (size : option Z) (format : option string) :
  h ≠ "" →
  rawAvatarURL USER_AVATAR USER_DEFAULT_AVATAR formatImageURL
    userID discriminator (Some (Some h)) size format
  = Some (formatImageURL (USER_AVATAR userID h) (default 128 size) format) ∧
  (avatar (user member) = Some (Some h) →
   avatarURL USER_AVATAR USER_DEFAULT_AVATAR formatImageURL member size format
   = Some (formatImageURL (USER_AVATAR (user_id (user member)) h)
             (default 128 size) format)).
Proof.
  intros Hne. split.
  - unfold rawAvatarURL. rewrite (avatar_hash_Some _ h eq_refl Hne). reflexivity.
  - intros Hav. unfold avatarURL, rawAvatarURL.
    rewrite (avatar_hash_Some _ h Hav Hne). reflexivity.
Qed.

Lemma avatarURL_custom_witness :
  rawAvatarURL Samples.USER_AVATAR Samples.USER_DEFAULT_AVATAR Samples.formatImageURL
    "alice" "not a number" (Some (Some "a1b2")) None (Some "png")
  = Some "avatars/alice/a1b2.png?size=128" ∧
  avatarURL Samples.USER_AVATAR Samples.USER_DEFAULT_AVATAR Samples.formatImageURL
    (Samples.alice (Some (Some "a1b2"))) (Some 64) None
  = Some "avatars/alice/a1b2.jpg?size=64".
Proof.
  destruct (avatarURL_custom Samples.USER_AVATAR Samples.USER_DEFAULT_AVATAR
              Samples.formatImageURL (Samples.alice (Some (Some "a1b2")))
              "alice" "not a number" "a1b2" None (Some "png")) as [Hraw _];
    [discriminate |].
  destruct (avatarURL_custom Samples.USER_AVATAR Samples.USER_DEFAULT_AVATAR
              Samples.formatImageURL (Samples.alice (Some (Some "a1b2")))
              "alice" "0007" "a1b2" (Some 64) None) as [_ Hmember];
    [discriminate |].
  split; [exact Hraw | exact (Hmember eq_refl)].
Defined.

(** X17: without an avatar hash (missing, null or the empty string) and
    with a discriminator of at most 15 decimal digits, rawAvatarURL is the
    USER_DEFAULT_AVATAR endpoint of the discriminator's value modulo 5, one
    of the indices 0 to 4, whatever the user, the size and the format. *)
Theorem rawAvatarURL_default (USER_AVATAR : string → string → string)
    (USER_DEFAULT_AVATAR : Z → string)
    (formatImageURL : string → Z → option string → string)
    (userID discriminator : string) (a : option (option string))
    (size : option Z) (format : option string) (n : Z) :
  a = None ∨ a = Some None ∨ a = Some (Some "") →
  Number_decimal discriminator = Some n →
  rawAvatarURL USER_AVATAR USER_DEFAULT_AVATAR formatImageURL
    userID discriminator a size format
  = Some (USER_DEFAULT_AVATAR (n mod 5)%Z) ∧
  (0 ≤ n mod 5 < 5)%Z.
Proof.
  intros Ha Hn. split.
  - unfold rawAvatarURL. rewrite (avatar_hash_None a Ha), Hn. reflexivity.
  - apply Z.mod_pos_bound. lia.
Qed.

Lemma rawAvatarURL_default_witness :
  rawAvatarURL Samples.USER_AVATAR Samples.USER_DEFAULT_AVATAR Samples.formatImageURL
    "alice" "0007" (Some (Some "")) (Some 64) (Some "png")
  = Some "embed/avatars/2.png".
Proof.
  exact (proj1 (rawAvatarURL_default Samples.USER_AVATAR Samples.USER_DEFAULT_AVATAR
                  Samples.formatImageURL "alice" "0007" (Some (Some ""))
                  (Some 64) (Some "png") 7 (or_intror (or_intror eq_refl)) eq_refl)).
Defined.

(** X18: the default avatar depends on the last digit of the discriminator
    only: its index is that digit modulo 5. *)
Theorem rawAvatarURL_default_last_digit (USER_AVATAR : string → string → string)
    (USER_DEFAULT_AVATAR : Z → string)
    (formatImageURL : string → Z → option string → string)
    (userID p : string) (c : Ascii.ascii) (a : option (option string))
    (size : option Z) (format : option string) (n d : Z) :
  a = None ∨ a = Some None ∨ a = Some (Some "") →
  Number_decimal (p +:+ String c "") = Some n →
  digit_of c = Some d →
  rawAvatarURL USER_AVATAR USER_DEFAULT_AVATAR formatImageURL
    userID (p +:+ String c "") a size format
  = Some (USER_DEFAULT_AVATAR (d mod 5)%Z).
Proof.
  intros Ha Hn Hd. unfold rawAvatarURL.
  rewrite (avatar_hash_None a Ha), Hn.
  rewrite (Number_decimal_last_digit p c n d Hn Hd). reflexivity.
Qed.

Lemma rawAvatarURL_default_last_digit_witness :
  rawAvatarURL Samples.USER_AVATAR Samples.USER_DEFAULT_AVATAR Samples.formatImageURL
    "alice" "4829" None None None
  = Some "embed/avatars/4.png".
Proof.
  exact (rawAvatarURL_default_last_digit Samples.USER_AVATAR Samples.USER_DEFAULT_AVATAR
           Samples.formatImageURL "alice" "482" (Ascii.ascii_of_nat 57) None None None 4829 9
           (or_introl eq_refl) eq_refl eq_refl).
Defined.
